(** * unified-mcp-server: a shallow embedding of [server.js]

    The development follows the source file top to bottom:
    - the JavaScript values and string primitives the program relies on
      ([String.prototype.split], [Array.prototype.join], template literals,
      property access, identifier resolution);
    - the insertion-ordered [Map] that holds [mcpProcesses];
    - a small state-and-exception monad for the handlers, whose state is the
      process-wide [World] (registry, console, spawned children, socket outbox);
    - [initializeMCPServers], [MCPHandler], the HTTP routes and the WebSocket
      message listener;
    - the properties of each of them. *)

From Stdlib Require Import String Ascii List Bool Arith Lia.
Import ListNotations.
Open Scope string_scope.
Open Scope list_scope.

Set Implicit Arguments.
Set Warnings "-register-all".

(* ===================================================================== *)
(** ** JavaScript strings *)
(* ===================================================================== *)

(** JavaScript strings are sequences of UTF-16 code units; the model uses
    Rocq's byte strings.  The only separators the program splits on are the
    ASCII characters [_] and [/], which never occur inside a multi-byte
    sequence, so splitting bytes and splitting code units agree. *)

Module JsString.

(** [s.split(sep)] for a one-character separator.  The result is never
    empty: the empty string splits into one empty piece. *)
Fixpoint split (sep : ascii) (s : string) : list string :=
  match s with
  | EmptyString => [EmptyString]
  | String c rest =>
      if Ascii.eqb c sep then EmptyString :: split sep rest
      else match split sep rest with
           | [] => [String c EmptyString]
           | piece :: pieces => String c piece :: pieces
           end
  end.

(** [parts.join(sep)] on an array of strings. *)
Fixpoint join (sep : string) (parts : list string) : string :=
  match parts with
  | [] => EmptyString
  | [piece] => piece
  | piece :: rest => piece ++ sep ++ join sep rest
  end.

(** The text before the first occurrence of [sep] (all of [s] when there
    is none). *)
Fixpoint before (sep : ascii) (s : string) : string :=
  match s with
  | EmptyString => EmptyString
  | String c rest =>
      if Ascii.eqb c sep then EmptyString else String c (before sep rest)
  end.

(** The text after the first occurrence of [sep], when there is one. *)
Fixpoint after (sep : ascii) (s : string) : option string :=
  match s with
  | EmptyString => None
  | String c rest => if Ascii.eqb c sep then Some rest else after sep rest
  end.

(** Does [sep] occur in [s]? *)
Fixpoint occurs (sep : ascii) (s : string) : bool :=
  match s with
  | EmptyString => false
  | String c rest => Ascii.eqb c sep || occurs sep rest
  end.

(** The double-quote character as a one-character string. *)
Definition dquote : string := String (ascii_of_nat 34) EmptyString.

End JsString.

(** The two separators of the naming convention. *)
Definition underscore : ascii := "_"%char.
Definition slash : ascii := "/"%char.

(* ===================================================================== *)
(** ** JavaScript values and errors *)
(* ===================================================================== *)

(** The values that reach the program from [JSON.parse], plus [undefined].
    A number is carried by the numeral that [Number.prototype.toString]
    prints for it: the program only echoes numbers or interpolates them
    into template literals.  An object is the list of its own properties
    (one entry per key, as [JSON.parse] leaves it). *)
Inductive JsValue : Type :=
| JUndefined
| JNull
| JBool (b : bool)
| JNum (numeral : string)
| JStr (s : string)
| JArr (items : list JsValue)
| JObj (props : list (string * JsValue)).

(** Errors, by constructor.  [Error] is what the program throws itself with
    [new Error(message)]; the other three are raised by the engine.  A
    [TypeError] and a [ReferenceError] carry the engine's message; a
    [SyntaxError] of [JSON.parse] carries the text that failed to parse, its
    message depending on where the parser stopped. *)
Inductive JsError : Type :=
| Error (message : string)
| TypeError (message : string)
| ReferenceError (message : string)
| SyntaxError (input : string).

(** [error.message]. *)
Definition message (e : JsError) : string :=
  match e with
  | Error m => m
  | TypeError m => m
  | ReferenceError m => m
  | SyntaxError input => "Unexpected token in JSON: " ++ input
  end.

(** The result of evaluating an expression: an exception or a value. *)
Definition Completion (A : Type) : Type := (JsError + A)%type.

Definition normal {A} (a : A) : Completion A := inr a.
Definition abrupt {A} (e : JsError) : Completion A := inl e.

Fixpoint ownProperty (key : string) (props : list (string * JsValue)) : option JsValue :=
  match props with
  | [] => None
  | (k, v) :: rest => if String.eqb k key then Some v else ownProperty key rest
  end.

(** [v.key] for the property names the program reads ([method], [params],
    [id], [name], [arguments], [uri], [query], [path], [env]).  None of them exists
    on a built-in prototype, so on anything but an object with such an own
    property the access yields [undefined]; on [undefined] and [null] it
    throws. *)
Definition getProp (v : JsValue) (key : string) : Completion JsValue :=
  match v with
  | JUndefined => abrupt (TypeError ("Cannot read properties of undefined (reading '" ++ key ++ "')"))
  | JNull => abrupt (TypeError ("Cannot read properties of null (reading '" ++ key ++ "')"))
  | JObj props =>
      normal (match ownProperty key props with Some x => x | None => JUndefined end)
  | _ => normal JUndefined
  end.

(** [ToString], as a template literal applies it.  An array prints its
    elements separated by commas, [null] and [undefined] elements as the
    empty string.  A parsed object prints as [[object Object]] unless it has
    an own property [toString]: that property is not callable, the inherited
    [valueOf] returns the object itself, and the conversion throws. *)
Fixpoint toStr (v : JsValue) : Completion string :=
  match v with
  | JUndefined => normal "undefined"
  | JNull => normal "null"
  | JBool true => normal "true"
  | JBool false => normal "false"
  | JNum numeral => normal numeral
  | JStr s => normal s
  | JArr items =>
      let fix elements (l : list JsValue) : Completion (list string) :=
        match l with
        | [] => normal []
        | x :: rest =>
            match (match x with
                   | JUndefined | JNull => normal EmptyString
                   | _ => toStr x
                   end) with
            | inl e => abrupt e
            | inr s =>
                match elements rest with
                | inl e => abrupt e
                | inr ss => normal (s :: ss)
                end
            end
        end in
      match elements items with
      | inl e => abrupt e
      | inr ss => normal (JsString.join "," ss)
      end
  | JObj props =>
      match ownProperty "toString" props with
      | Some _ => abrupt (TypeError "Cannot convert object to primitive value")
      | None => normal "[object Object]"
      end
  end.

(** A local that array destructuring may leave [undefined], interpolated
    into a template literal. *)
Definition interpolate (x : option string) : string :=
  match x with
  | Some s => s
  | None => "undefined"
  end.

(** Truthiness, for [x || y]. *)
Definition truthy (v : JsValue) : bool :=
  match v with
  | JUndefined | JNull => false
  | JBool b => b
  | JNum numeral => negb (String.eqb numeral "0")
  | JStr s => negb (String.eqb s "")
  | JArr _ | JObj _ => true
  end.

(* ===================================================================== *)
(** ** Identifier resolution *)
(* ===================================================================== *)

(** A [const] binding exists from the start of its block but cannot be read
    before its declaration has been evaluated (the temporal dead zone). *)
Inductive Slot : Type :=
| Uninitialized
| Holds (v : JsValue).

(** A scope is the list of the names it declares; a chain lists the scopes
    that enclose an expression, innermost first. *)
Definition Scope : Type := list (string * Slot).
Definition ScopeChain : Type := list Scope.

Fixpoint declared (x : string) (sc : Scope) : option Slot :=
  match sc with
  | [] => None
  | (y, slot) :: rest => if String.eqb y x then Some slot else declared x rest
  end.

(** Evaluating the identifier [x]: the innermost scope that declares it
    decides; an uninitialised binding and a missing one both throw a
    [ReferenceError]. *)
Fixpoint resolve (chain : ScopeChain) (x : string) : Completion JsValue :=
  match chain with
  | [] => abrupt (ReferenceError (x ++ " is not defined"))
  | sc :: outer =>
      match declared x sc with
      | Some (Holds v) => normal v
      | Some Uninitialized =>
          abrupt (ReferenceError ("Cannot access '" ++ x ++ "' before initialization"))
      | None => resolve outer x
      end
  end.

(** An object the model does not look into (a library or host object). *)
Definition opaque : Slot := Holds (JObj []).

(** The bindings of the module: the [require]d libraries, the CommonJS
    wrapper's parameters and the top-level declarations of [server.js]. *)
Definition moduleScope : Scope :=
  [ ("require", opaque); ("module", opaque); ("exports", opaque);
    ("__filename", opaque); ("__dirname", opaque);
    ("express", opaque); ("spawn", opaque); ("http", opaque);
    ("WebSocket", opaque); ("app", opaque); ("port", opaque);
    ("REPOSITORIES", opaque); ("mcpProcesses", opaque);
    ("initializeMCPServers", opaque); ("MCPHandler", opaque);
    ("mcpHandler", opaque); ("server", opaque); ("wss", opaque) ].

(** The properties of the global object that the program names.  [env]
    stands for the environment of the server process. *)
Definition globalScope (env : list (string * JsValue)) : Scope :=
  [ ("process", Holds (JObj [("env", JObj env)]));
    ("console", opaque); ("JSON", opaque); ("Object", opaque);
    ("Array", opaque); ("Map", opaque); ("Date", opaque); ("Error", opaque) ].

(* ===================================================================== *)
(** ** The insertion-ordered [Map] *)
(* ===================================================================== *)

(** A JavaScript [Map] with string keys iterates in insertion order;
    [set] on a key already present replaces the value where it stands,
    [set] on a new key appends, [delete] removes the entry. *)
Module JsMap.

Definition t (V : Type) : Type := list (string * V).

Definition empty {V} : t V := [].

Fixpoint get {V} (key : string) (m : t V) : option V :=
  match m with
  | [] => None
  | (k, v) :: rest => if String.eqb k key then Some v else get key rest
  end.

Definition has {V} (key : string) (m : t V) : bool :=
  match get key m with
  | Some _ => true
  | None => false
  end.

Fixpoint set {V} (key : string) (value : V) (m : t V) : t V :=
  match m with
  | [] => [(key, value)]
  | (k, v) :: rest =>
      if String.eqb k key then (k, value) :: rest
      else (k, v) :: set key value rest
  end.

Fixpoint delete {V} (key : string) (m : t V) : t V :=
  match m with
  | [] => []
  | (k, v) :: rest =>
      if String.eqb k key then delete key rest
      else (k, v) :: delete key rest
  end.

Definition keys {V} (m : t V) : list string := map fst m.

Definition entries {V} (m : t V) : list (string * V) := m.

End JsMap.

(* ===================================================================== *)
(** ** The data of the program *)
(* ===================================================================== *)

(** A child process, as far as the program looks at it: the command line it
    was spawned with. *)
Record ChildProcess : Type := mkChild {
  command : string;
  arguments : list string
}.

(** The value stored in [mcpProcesses] for a repository. *)
Record RepoData : Type := mkRepoData {
  process : ChildProcess;
  url : string;
  status : string
}.

Definition Registry : Type := JsMap.t RepoData.

(** One property of an input schema. *)
Module Property.
Record t : Type := mk {
  type : string;
  description : option string;
  default : option JsValue
}.
End Property.

Module Schema.
Record t : Type := mk {
  type : string;
  properties : list (string * Property.t);
  required : option (list string)
}.
End Schema.

Module Tool.
Record t : Type := mk {
  name : string;
  description : string;
  inputSchema : Schema.t
}.
End Tool.

Module Resource.
Record t : Type := mk {
  uri : string;
  name : string;
  description : string;
  mimeType : string
}.
End Resource.

(** An element of [results] of the search action. *)
Record SearchHit : Type := mkHit {
  hit_path : string;
  hit_content : string;
  hit_score : string
}.

(** An element of [files] of the list action. *)
Record FileEntry : Type := mkFile {
  file_name : string;
  file_type : string;
  file_path : string
}.

(** An element of [contents] of [readResource]. *)
Record Content : Type := mkContent {
  content_uri : JsValue;
  content_mimeType : string;
  content_text : string
}.

(** What [handleRequest] returns, by the branch that built it. *)
Inductive Response : Type :=
| Initialized (protocolVersion serverName serverVersion : string)
| ToolList (tools : list Tool.t)
| SearchResults (results : list SearchHit)
| FileList (files : list FileEntry)
| ResourceList (resources : list Resource.t)
| Contents (contents : list Content).

(** The body of a reply on the socket. *)
Inductive Outcome : Type :=
| Result (response : Response)
| Failure (code : string) (msg : string).

(** A reply envelope; [id] is [JUndefined] when [JSON.stringify] leaves the
    key out. *)
Record Envelope : Type := mkEnvelope {
  jsonrpc : string;
  id : JsValue;
  outcome : Outcome
}.

(** A line on the console. *)
Inductive LogLine : Type :=
| Log (text : string)
| LogError (text : string) (error : option JsError).

(** The process-wide state: the registry, the console, the children that
    [spawn] created, the repository names whose child has its listeners
    attached, and the messages sent on the socket. *)
Record World : Type := mkWorld {
  mcpProcesses : Registry;
  console : list LogLine;
  children : list ChildProcess;
  supervised : list string;
  sent : list Envelope
}.

Definition initialWorld : World :=
  {| mcpProcesses := JsMap.empty; console := []; children := [];
     supervised := []; sent := [] |}.

(* ===================================================================== *)
(** ** The monad of the handlers *)
(* ===================================================================== *)

(** A computation runs in a world and ends in a world, with a value or with
    a thrown error; what it did before throwing stays done. *)
Definition M (A : Type) : Type := World -> Completion A * World.

Definition ret {A} (a : A) : M A := fun w => (normal a, w).

Definition throw {A} (e : JsError) : M A := fun w => (abrupt e, w).

Definition bind {A B} (m : M A) (k : A -> M B) : M B :=
  fun w =>
    match m w with
    | (inl e, w') => (inl e, w')
    | (inr a, w') => k a w'
    end.

(** [try { body } catch (error) { handler }]. *)
Definition try_catch {A} (body : M A) (handler : JsError -> M A) : M A :=
  fun w =>
    match body w with
    | (inl e, w') => handler e w'
    | (inr a, w') => (inr a, w')
    end.

(** An expression evaluated for its completion. *)
Definition eval {A} (c : Completion A) : M A := fun w => (c, w).

Declare Scope js_scope.
Delimit Scope js_scope with js.
Notation "x <- m ;; k" := (bind m (fun x => k))
  (at level 100, m at next level, right associativity) : js_scope.
Notation "m ;; k" := (bind m (fun _ => k))
  (at level 100, right associativity) : js_scope.
Open Scope js_scope.

(** Reading the registry. *)
Definition mcp_has (key : option string) : M bool :=
  fun w =>
    (normal (match key with
             | Some k => JsMap.has k (mcpProcesses w)
             | None => false
             end), w).

Definition mcp_entries : M (list (string * RepoData)) :=
  fun w => (normal (JsMap.entries (mcpProcesses w)), w).

Definition mcp_keys : M (list string) :=
  fun w => (normal (JsMap.keys (mcpProcesses w)), w).

(** Writing the registry. *)
Definition mcp_set (key : string) (value : RepoData) : M unit :=
  fun w =>
    (normal tt,
     {| mcpProcesses := JsMap.set key value (mcpProcesses w);
        console := console w; children := children w; supervised := supervised w; sent := sent w |}).

Definition mcp_delete (key : string) : M unit :=
  fun w =>
    (normal tt,
     {| mcpProcesses := JsMap.delete key (mcpProcesses w);
        console := console w; children := children w; supervised := supervised w; sent := sent w |}).

(** The console. *)
Definition console_log (text : string) : M unit :=
  fun w =>
    (normal tt,
     {| mcpProcesses := mcpProcesses w;
        console := console w ++ [Log text];
        children := children w; supervised := supervised w; sent := sent w |}).

Definition console_error (text : string) (error : option JsError) : M unit :=
  fun w =>
    (normal tt,
     {| mcpProcesses := mcpProcesses w;
        console := console w ++ [LogError text error];
        children := children w; supervised := supervised w; sent := sent w |}).

(** [ws.send(JSON.stringify(envelope))]. *)
Definition ws_send (envelope : Envelope) : M unit :=
  fun w =>
    (normal tt,
     {| mcpProcesses := mcpProcesses w; console := console w;
        children := children w; supervised := supervised w;
        sent := sent w ++ [envelope] |}).

(* ===================================================================== *)
(** ** [initializeMCPServers] *)
(* ===================================================================== *)

(** How a child ended: with an exit code, or killed by a signal (the
    listener then receives [null]). *)
Inductive ExitCode : Type :=
| Exited (numeral : string)
| Signalled.

Definition exitCodeText (code : ExitCode) : string :=
  match code with
  | Exited numeral => numeral
  | Signalled => "null"
  end.

(** The listener of [process.on('exit', ...)] for the repository [name]. *)
Definition onExit (name : string) (code : ExitCode) : M unit :=
  console_log ("[" ++ name ++ "] Process exited with code " ++ exitCodeText code) ;;
  mcp_delete name.

(** The listeners of [process.stdout.on('data', ...)] and
    [process.stderr.on('data', ...)]. *)
Definition onStdout (name data : string) : M unit :=
  console_log ("[" ++ name ++ "] " ++ data).

Definition onStderr (name data : string) : M unit :=
  console_error ("[" ++ name ++ "] ERROR: " ++ data) None.

(** Attaching the three listeners to the child of [name]. *)
Definition attachListeners (name : string) : M unit :=
  fun w =>
    (normal tt,
     {| mcpProcesses := mcpProcesses w; console := console w;
        children := children w; supervised := supervised w ++ [name];
        sent := sent w |}).

Section Server.

(** The environment of the server process, and the configurations on which
    [child_process.spawn] throws synchronously. *)
Variable env : list (string * JsValue).
Variable spawnThrows : string -> list string -> option JsError.

(** [spawn(command, args, options)]. *)
Definition spawn (cmd : string) (args : list string) : M ChildProcess :=
  fun w =>
    match spawnThrows cmd args with
    | Some e => (abrupt e, w)
    | None =>
        let child := mkChild cmd args in
        (normal child,
         {| mcpProcesses := mcpProcesses w; console := console w;
            children := children w ++ [child];
            supervised := supervised w; sent := sent w |})
    end.

(** The scopes around the initializer of [const process = spawn(...)], whose
    options read [process.env]: the [try] block, which declares [process]
    itself and has not initialised it yet; the loop body with [name] and
    [url]; the function; the module; the global object. *)
Definition spawnInitializerScope (name url : string) : ScopeChain :=
  [ [("process", Uninitialized)];
    [("name", Holds (JStr name)); ("url", Holds (JStr url))];
    [];
    moduleScope;
    globalScope env ].

(** The body of the loop, with the scopes of the initializer as a
    parameter. *)
Definition startBackendIn (scope : ScopeChain) (name url : string) : M unit :=
  try_catch
    (console_log ("Starting MCP server for " ++ name ++ "...") ;;
     processObject <- eval (resolve scope "process") ;;
     _ <- eval (getProp processObject "env") ;;
     child <- spawn "npx" ["mcp-remote"; url] ;;
     attachListeners name ;;
     mcp_set name {| process := child; url := url; status := "running" |})
    (fun error =>
       console_error ("Failed to start MCP server for " ++ name ++ ":") (Some error)).

(** One turn of the loop of [initializeMCPServers], in the scopes the source
    gives it. *)
Definition startBackend (name url : string) : M unit :=
  startBackendIn (spawnInitializerScope name url) name url.

Fixpoint forEach {A} (items : list A) (body : A -> M unit) : M unit :=
  match items with
  | [] => ret tt
  | item :: rest => body item ;; forEach rest body
  end.

(** [REPOSITORIES] is given by [Object.entries], in its order. *)
Definition initializeMCPServers (REPOSITORIES : list (string * string)) : M unit :=
  console_log "Initializing MCP servers..." ;;
  forEach REPOSITORIES (fun entry => startBackend (fst entry) (snd entry)).

End Server.

(** The configuration of [server.js]. *)
Definition REPOSITORIES : list (string * string) :=
  [ ("context7", "https://gitmcp.io/upstash/context7");
    ("n8n-mcp", "https://gitmcp.io/nicknerov/n8n-mcp");
    ("n8n-workflows", "https://gitmcp.io/Zie619/n8n-workflows") ].

(* ===================================================================== *)
(** ** [MCPHandler] *)
(* ===================================================================== *)

Definition searchTool (repoName : string) : Tool.t :=
  {| Tool.name := repoName ++ "_search";
     Tool.description := "Search " ++ repoName ++ " repository";
     Tool.inputSchema :=
       {| Schema.type := "object";
          Schema.properties :=
            [ ("query", {| Property.type := "string";
                           Property.description := Some "Search query";
                           Property.default := None |});
              ("limit", {| Property.type := "number";
                           Property.description := None;
                           Property.default := Some (JNum "10") |}) ];
          Schema.required := Some ["query"] |} |}.

Definition listTool (repoName : string) : Tool.t :=
  {| Tool.name := repoName ++ "_list";
     Tool.description := "List files in " ++ repoName ++ " repository";
     Tool.inputSchema :=
       {| Schema.type := "object";
          Schema.properties :=
            [ ("path", {| Property.type := "string";
                          Property.description := None;
                          Property.default := Some (JStr "/") |}) ];
          Schema.required := None |} |}.

Definition rootResource (repoName : string) : Resource.t :=
  {| Resource.uri := "mcp://" ++ repoName ++ "/";
     Resource.name := repoName ++ " Repository";
     Resource.description := "Access to " ++ repoName ++ " repository files";
     Resource.mimeType := "application/json" |}.

(** [repoData.status === 'running']. *)
Definition isRunning (repoData : RepoData) : bool :=
  String.eqb (status repoData) "running".

(** The loop of [getAllTools] pushes onto a local array. *)
Definition getAllTools : M (list Tool.t) :=
  entries <- mcp_entries ;;
  ret (fold_left
         (fun tools (entry : string * RepoData) =>
            let (repoName, repoData) := entry in
            if isRunning repoData
            then (tools ++ [searchTool repoName]) ++ [listTool repoName]
            else tools)
         entries []).

Definition getAllResources : M (list Resource.t) :=
  entries <- mcp_entries ;;
  ret (fold_left
         (fun resources (entry : string * RepoData) =>
            let (repoName, repoData) := entry in
            if isRunning repoData
            then resources ++ [rootResource repoName]
            else resources)
         entries []).

(** [const [...] = value.split(sep)]: only a string has a callable [split];
    the engine words the failure for the destructuring the call stands in. *)
Definition callSplit (what : string) (value : JsValue) (sep : ascii)
  : Completion (list string) :=
  match value with
  | JStr s => normal (JsString.split sep s)
  | JUndefined =>
      abrupt (TypeError "Cannot read properties of undefined (reading 'split')")
  | JNull =>
      abrupt (TypeError "Cannot read properties of null (reading 'split')")
  | _ =>
      abrupt (TypeError (what ++ ".split is not a function or its return value is not iterable"))
  end.

(** [const [repoName, action] = name.split('_')]. *)
Definition parseToolName (name : string) : option string * option string :=
  let parts := JsString.split underscore name in
  (nth_error parts 0, nth_error parts 1).

(** [switch (action)] compares with [===]. *)
Definition isCase (scrutinee : option string) (label : string) : bool :=
  match scrutinee with
  | Some s => String.eqb s label
  | None => false
  end.

Definition callTool (name args : JsValue) : M Response :=
  parts <- eval (callSplit "name" name underscore) ;;
  let repoName := nth_error parts 0 in
  let action := nth_error parts 1 in
  present <- mcp_has repoName ;;
  if negb present
  then throw (Error ("Repository " ++ interpolate repoName ++ " not available"))
  else if isCase action "search" then
    query <- eval (getProp args "query") ;;
    queryText <- eval (toStr query) ;;
    ret (SearchResults
           [ {| hit_path := "/" ++ interpolate repoName ++ "/example.md";
                hit_content := "Search results for " ++ JsString.dquote ++ queryText
                                 ++ JsString.dquote ++ " in " ++ interpolate repoName;
                hit_score := "0.95" |} ])
  else if isCase action "list" then
    path1 <- eval (getProp args "path") ;;
    pathText1 <- eval (toStr path1) ;;
    path2 <- eval (getProp args "path") ;;
    pathText2 <- eval (toStr path2) ;;
    ret (FileList
           [ {| file_name := "README.md"; file_type := "file";
                file_path := pathText1 ++ "/README.md" |};
             {| file_name := "docs"; file_type := "directory";
                file_path := pathText2 ++ "/docs/" |} ])
  else throw (Error ("Unknown action: " ++ interpolate action)).

(** [const [, , repoName, ...pathParts] = uri.split('/')] and
    [pathParts.join('/')]. *)
Definition parseResourceUri (uri : string) : option string * string :=
  let parts := JsString.split slash uri in
  (nth_error parts 2, JsString.join "/" (skipn 3 parts)).

Definition readResource (uri : JsValue) : M Response :=
  parts <- eval (callSplit "uri" uri slash) ;;
  let repoName := nth_error parts 2 in
  let pathParts := skipn 3 parts in
  let path := JsString.join "/" pathParts in
  ret (Contents
         [ {| content_uri := uri;
              content_mimeType := "text/plain";
              content_text := "Content of " ++ path ++ " from "
                                ++ interpolate repoName ++ " repository" |} ]).

(** [switch (method)] compares with [===]: only a string equals a label. *)
Definition strictEq (v : JsValue) (label : string) : bool :=
  match v with
  | JStr s => String.eqb s label
  | _ => false
  end.

Definition handleRequest (method params : JsValue) : M Response :=
  if strictEq method "initialize" then
    ret (Initialized "2024-11-05" "unified-mcp-server" "1.0.0")
  else if strictEq method "tools/list" then
    tools <- getAllTools ;;
    ret (ToolList tools)
  else if strictEq method "tools/call" then
    name <- eval (getProp params "name") ;;
    args <- eval (getProp params "arguments") ;;
    callTool name args
  else if strictEq method "resources/list" then
    resources <- getAllResources ;;
    ret (ResourceList resources)
  else if strictEq method "resources/read" then
    uri <- eval (getProp params "uri") ;;
    readResource uri
  else
    methodText <- eval (toStr method) ;;
    throw (Error ("Unknown method: " ++ methodText)).

(* ===================================================================== *)
(** ** The HTTP routes *)
(* ===================================================================== *)

(** One row of [processes] in the health report. *)
Record ProcessInfo : Type := mkInfo {
  info_name : string;
  info_status : string;
  info_url : string
}.

Inductive HttpBody : Type :=
| HealthBody (healthStatus timestamp : string) (repositories : list string)
             (processes : list ProcessInfo)
| ToolsBody (tools : list Tool.t)
| ResultBody (result : Response)
| ResourcesBody (resources : list Resource.t)
| ResourceBody (resource : Response)
| ErrorBody (error : string).

Record HttpReply : Type := mkReply {
  statusCode : nat;
  body : HttpBody
}.

(** [res.json(body)] and [res.status(500).json({ error: error.message })]. *)
Definition json (b : HttpBody) : M HttpReply := ret {| statusCode := 200; body := b |}.

Definition internalError (error : JsError) : M HttpReply :=
  ret {| statusCode := 500; body := ErrorBody (message error) |}.

(** [GET /health]; [now] is [new Date().toISOString()]. *)
Definition getHealth (now : string) : M HttpReply :=
  names <- mcp_keys ;;
  entries <- mcp_entries ;;
  json (HealthBody "healthy" now names
          (map (fun entry : string * RepoData =>
                  {| info_name := fst entry;
                     info_status := status (snd entry);
                     info_url := url (snd entry) |})
               entries)).

(** [GET /mcp/tools]. *)
Definition getTools : M HttpReply :=
  try_catch (tools <- getAllTools ;; json (ToolsBody tools)) internalError.

(** [POST /mcp/tools/:toolName]; [requestBody] is [req.body]. *)
Definition postTool (toolName : string) (requestBody : JsValue) : M HttpReply :=
  try_catch
    (given <- eval (getProp requestBody "arguments") ;;
     result <- callTool (JStr toolName) (if truthy given then given else JObj []) ;;
     json (ResultBody result))
    internalError.

(** [GET /mcp/resources]. *)
Definition getResources : M HttpReply :=
  try_catch (resources <- getAllResources ;; json (ResourcesBody resources))
            internalError.

(** [GET /mcp/resources/*]; [rest] is [req.params[0]]. *)
Definition getResource (rest : string) : M HttpReply :=
  try_catch
    (resource <- readResource (JStr ("mcp://" ++ rest)) ;;
     json (ResourceBody resource))
    internalError.

(* ===================================================================== *)
(** ** The WebSocket listener *)
(* ===================================================================== *)

(** An inbound message, by what [JSON.parse(message.toString())] makes of
    it: a syntax error, or the parsed value. *)
Inductive WsMessage : Type :=
| Malformed (raw : string)
| Parsed (v : JsValue).

Definition JSON_parse (m : WsMessage) : Completion JsValue :=
  match m with
  | Malformed raw => abrupt (SyntaxError raw)
  | Parsed v => normal v
  end.

Section Socket.

Variable env : list (string * JsValue).

(** The scopes around the [catch] block of the listener: the block itself
    with [error]; the listener with [message]; the connection callback with
    [ws]; the module; the global object.  The [try] block, which declares
    [request] and [response], is a sibling of the [catch] block and not
    around it. *)
Definition catchScope : ScopeChain :=
  [ [("error", opaque)];
    [("message", opaque)];
    [("ws", opaque)];
    moduleScope;
    globalScope env ].

(** The listener of [ws.on('message', ...)].  Its completion is the
    settlement of the promise the [async] function returns. *)
Definition onMessage (m : WsMessage) : M unit :=
  try_catch
    (request <- eval (JSON_parse m) ;;
     method <- eval (getProp request "method") ;;
     params <- eval (getProp request "params") ;;
     response <- handleRequest method params ;;
     requestId <- eval (getProp request "id") ;;
     ws_send {| jsonrpc := "2.0"; id := requestId; outcome := Result response |})
    (fun error =>
       request <- eval (resolve catchScope "request") ;;
       requestId <- eval (getProp request "id") ;;
       ws_send {| jsonrpc := "2.0"; id := requestId;
                  outcome := Failure "-32000" (message error) |}).

End Socket.

(* ===================================================================== *)
(** ** The event loop *)
(* ===================================================================== *)

Inductive HttpRequest : Type :=
| GetHealth (now : string)
| GetTools
| PostTool (toolName : string) (requestBody : JsValue)
| GetResources
| GetResource (rest : string).

Definition route (r : HttpRequest) : M HttpReply :=
  match r with
  | GetHealth now => getHealth now
  | GetTools => getTools
  | PostTool toolName requestBody => postTool toolName requestBody
  | GetResources => getResources
  | GetResource rest => getResource rest
  end.

(** What the event loop delivers to the program.  [TurnEnds] is the end of
    a turn of the loop: the microtasks of the turn have drained. *)
Inductive Event : Type :=
| Listening
| ChildStdout (name data : string)
| ChildStderr (name data : string)
| ChildExit (name : string) (code : ExitCode)
| SocketMessage (m : WsMessage)
| Http (r : HttpRequest)
| TurnEnds.

(** The Node process: running; running with a promise that was rejected and
    that nobody handles; or ended by it.  The image runs Node 20, which
    looks for unhandled rejections once the microtasks of a turn have
    drained and then ends the process as for an uncaught exception: the
    listeners that are due in the same turn still run. *)
Inductive Process : Type :=
| Alive (w : World)
| Doomed (w : World) (reason : JsError)
| Terminated (w : World) (reason : JsError).

Definition settle {A} (m : M A) (w : World) : Process :=
  match m w with
  | (inl e, w') => Doomed w' e
  | (inr _, w') => Alive w'
  end.

Section EventLoop.

(** The environment of the process, the port the server listens on
    ([process.env.PORT || 3000], as text) and the behaviour of [spawn]. *)
Variable env : list (string * JsValue).
Variable port : string.
Variable spawnThrows : string -> list string -> option JsError.

(** A child's listeners run only once they have been attached. *)
Definition whenSupervised (name : string) (listener : M unit) : M unit :=
  fun w =>
    if existsb (String.eqb name) (supervised w) then listener w
    else (normal tt, w).

(** The listener that an event runs. *)
Definition listener (e : Event) : M unit :=
  match e with
  | Listening =>
      console_log ("Unified MCP Server running on port " ++ port) ;;
      initializeMCPServers env spawnThrows REPOSITORIES
  | ChildStdout name data => whenSupervised name (onStdout name data)
  | ChildStderr name data => whenSupervised name (onStderr name data)
  | ChildExit name code => whenSupervised name (onExit name code)
  | SocketMessage m => onMessage env m
  | Http r => _ <- route r ;; ret tt
  | TurnEnds => ret tt
  end.

(** Events are delivered one at a time and each listener is run to its end
    on delivery.  The listeners of the program read the registry and write
    only the console or the socket, so what each of them computes does not
    depend on how its awaits interleave with those of the other listeners
    of the turn; only the order in which the envelopes of one turn reach the
    socket can differ from the order of delivery, and nothing below rests
    on it.  A rejection dooms the process, which goes on running listeners
    until the turn ends. *)
Definition deliver (p : Process) (e : Event) : Process :=
  match p with
  | Terminated _ _ => p
  | Alive w => settle (listener e) w
  | Doomed w reason =>
      match e with
      | TurnEnds => Terminated w reason
      | _ => Doomed (snd (listener e w)) reason
      end
  end.

Definition run (events : list Event) : Process :=
  fold_left deliver events (Alive initialWorld).

Definition worldOf (p : Process) : World :=
  match p with
  | Alive w => w
  | Doomed w _ => w
  | Terminated w _ => w
  end.

End EventLoop.

(* ===================================================================== *)
(** ** The vocabulary of the properties *)
(* ===================================================================== *)

(** The two errors of identifier resolution that the program runs into. *)
Definition requestNotDefined : JsError :=
  ReferenceError "request is not defined".

Definition processNotInitialized : JsError :=
  ReferenceError "Cannot access 'process' before initialization".

(** The split the specification describes: the text before the first
    separator, and all of the text after it. *)
Definition splitOnFirstSeparator (name : string) : option string * option string :=
  (Some (JsString.before underscore name), JsString.after underscore name).

(** A computation is read-only when it ends in the world it started in,
    whether it returns or throws. *)
Definition readOnly {A} (m : M A) : Prop := forall w, snd (m w) = w.

(** The names of the entries whose status is [running], in iteration
    order. *)
Definition runningNames (registry : Registry) : list string :=
  map fst (filter (fun entry => isRunning (snd entry)) registry).

Definition toolsOf (repoName : string) : list Tool.t :=
  [searchTool repoName; listTool repoName].

(** The world with one more envelope on the socket. *)
Definition withSent (w : World) (envelope : Envelope) : World :=
  {| mcpProcesses := mcpProcesses w; console := console w;
     children := children w; supervised := supervised w;
     sent := sent w ++ [envelope] |}.

(** The [try] block of the listener on its own. *)
Definition attempt (m : WsMessage) : M unit :=
  request <- eval (JSON_parse m) ;;
  method <- eval (getProp request "method") ;;
  params <- eval (getProp request "params") ;;
  response <- handleRequest method params ;;
  requestId <- eval (getProp request "id") ;;
  ws_send {| jsonrpc := "2.0"; id := requestId; outcome := Result response |}.

(** The registry starts empty (line 20) and is written in two places: the
    [set] that follows a successful [spawn] (line 48) and the [delete] of
    the exit listener (line 45). *)
Inductive RegistryReachable : Registry -> Prop :=
| reach_empty : RegistryReachable JsMap.empty
| reach_set (name url : string) (child : ChildProcess) (registry : Registry) :
    RegistryReachable registry ->
    RegistryReachable
      (JsMap.set name {| process := child; url := url; status := "running" |} registry)
| reach_delete (name : string) (registry : Registry) :
    RegistryReachable registry ->
    RegistryReachable (JsMap.delete name registry).



(** What is left of [s] behind [prefix], when [s] starts with it. *)
Fixpoint dropPrefix (prefix s : string) : option string :=
  match prefix with
  | EmptyString => Some s
  | String c prefix' =>
      match s with
      | EmptyString => None
      | String d s' => if Ascii.eqb c d then dropPrefix prefix' s' else None
      end
  end.

(** The parse of an address the specification describes: strip the scheme
    prefix [mcp://], then split what remains at its first slash into the
    repository and the path. *)
Definition parseAfterScheme (uri : string) : option string * string :=
  let remainder :=
    match dropPrefix "mcp://" uri with
    | Some rest => rest
    | None => uri
    end in
  (Some (JsString.before slash remainder),
   match JsString.after slash remainder with
   | Some path => path
   | None => EmptyString
   end).

(* ===================================================================== *)
(** ** Sample states *)
(* ===================================================================== *)

(** A world that holds the given registry and nothing else. *)
Definition worldWith (registry : Registry) : World :=
  {| mcpProcesses := registry; console := []; children := [];
     supervised := []; sent := [] |}.

(** The entry that line 48 stores for a child bridging to [address]. *)
Definition registered (address : string) : RepoData :=
  {| process := mkChild "npx" ["mcp-remote"; address];
     url := address;
     status := "running" |}.

(** The registry of the end-to-end scenario: [alpha], then [beta]. *)
Definition alphaBeta : Registry :=
  JsMap.set "beta" (registered "http://y")
    (JsMap.set "alpha" (registered "http://x") JsMap.empty).

(** A registry that holds the first configured repository. *)
Definition context7Only : Registry :=
  JsMap.set "context7" (registered "https://gitmcp.io/upstash/context7") JsMap.empty.

(* ===================================================================== *)
(** * Properties *)
(* ===================================================================== *)

(** ** Splitting and joining *)

Section Splitting.

Variable sep : ascii.

(** The first piece of a split is the text before the first separator; the
    other pieces are the split of what follows it. *)
Lemma split_first_rest (s : string) :
  JsString.split sep s =
  JsString.before sep s ::
    match JsString.after sep s with
    | Some rest => JsString.split sep rest
    | None => []
    end.
Proof.
  induction s as [| c s IH]; simpl.
  - reflexivity.
  - destruct (Ascii.eqb c sep).
    + reflexivity.
    + rewrite IH. reflexivity.
Qed.

Lemma split_nonempty (s : string) : JsString.split sep s <> [].
Proof. rewrite split_first_rest. discriminate. Qed.

(** Joining the pieces with the separator gives the string back. *)
Lemma join_split (s : string) :
  JsString.join (String sep EmptyString) (JsString.split sep s) = s.
Proof.
  induction s as [| c s IH]; simpl.
  - reflexivity.
  - destruct (Ascii.eqb_spec c sep) as [-> | Hneq].
    + destruct (JsString.split sep s) as [| piece pieces] eqn:Hs.
      * exfalso. now apply (split_nonempty s).
      * change (JsString.join (String sep "") ("" :: piece :: pieces))
          with (String sep (JsString.join (String sep "") (piece :: pieces))).
        now rewrite IH.
    + destruct (JsString.split sep s) as [| piece pieces] eqn:Hs.
      * exfalso. now apply (split_nonempty s).
      * destruct pieces as [| piece' pieces].
        -- simpl in *. now rewrite IH.
        -- change (JsString.join (String sep "") (String c piece :: piece' :: pieces))
             with (String c (JsString.join (String sep "") (piece :: piece' :: pieces))).
           now rewrite IH.
Qed.

(** A string without the separator is its own single piece. *)
Lemma before_no_separator (s : string) :
  JsString.occurs sep s = false -> JsString.before sep s = s.
Proof.
  induction s as [| c s IH]; simpl; intros H.
  - reflexivity.
  - apply orb_false_iff in H as [Hc Hs]. rewrite Hc. now rewrite IH.
Qed.

End Splitting.

(** ** The naming convention of [callTool] *)

(** What the destructuring keeps: the first two pieces of the full split. *)
Lemma parseToolName_pieces (name : string) :
  parseToolName name =
  (Some (JsString.before underscore name),
   option_map (JsString.before underscore) (JsString.after underscore name)).
Proof.
  unfold parseToolName. rewrite split_first_rest. simpl.
  destruct (JsString.after underscore name) as [rest |]; simpl.
  - now rewrite split_first_rest.
  - reflexivity.
Qed.

(** With a single separator in the name the two splits agree. *)
Lemma parseToolName_single_separator (name rest : string) :
  JsString.after underscore name = Some rest ->
  JsString.occurs underscore rest = false ->
  parseToolName name = splitOnFirstSeparator name.
Proof.
  intros Hafter Hnone. rewrite parseToolName_pieces. unfold splitOnFirstSeparator.
  rewrite Hafter. simpl. now rewrite (@before_no_separator underscore rest Hnone).
Qed.

(** ** The parsing of resource addresses *)

(** Behind the scheme [mcp://], the repository is the text up to the first
    slash and the path is everything after that slash. *)
Lemma parseResourceUri_scheme (rest : string) :
  parseResourceUri ("mcp://" ++ rest) =
  (Some (JsString.before slash rest),
   match JsString.after slash rest with
   | Some path => path
   | None => EmptyString
   end).
Proof.
  unfold parseResourceUri.
  rewrite split_first_rest. cbn [JsString.before JsString.after append Ascii.eqb
                                  slash Bool.eqb].
  simpl.
  rewrite (split_first_rest slash rest). simpl.
  destruct (JsString.after slash rest) as [path |].
  - f_equal. apply join_split.
  - reflexivity.
Qed.

(** ** Computations that leave the world alone *)

Lemma readOnly_ret {A} (a : A) : readOnly (ret a).
Proof. intros w. reflexivity. Qed.

Lemma readOnly_throw {A} (e : JsError) : readOnly (@throw A e).
Proof. intros w. reflexivity. Qed.

Lemma readOnly_eval {A} (c : Completion A) : readOnly (eval c).
Proof. intros w. reflexivity. Qed.

Lemma readOnly_bind {A B} (m : M A) (k : A -> M B) :
  readOnly m -> (forall a, readOnly (k a)) -> readOnly (bind m k).
Proof.
  intros Hm Hk w. unfold bind. specialize (Hm w).
  destruct (m w) as [[e | a] w']; simpl in Hm; subst w'.
  - reflexivity.
  - apply Hk.
Qed.

Lemma readOnly_try_catch {A} (body : M A) (handler : JsError -> M A) :
  readOnly body -> (forall e, readOnly (handler e)) -> readOnly (try_catch body handler).
Proof.
  intros Hb Hh w. unfold try_catch. specialize (Hb w).
  destruct (body w) as [[e | a] w']; simpl in Hb; subst w'.
  - apply Hh.
  - reflexivity.
Qed.

Lemma readOnly_mcp_has (key : option string) : readOnly (mcp_has key).
Proof. intros w. reflexivity. Qed.

Lemma readOnly_mcp_entries : readOnly mcp_entries.
Proof. intros w. reflexivity. Qed.

Lemma readOnly_mcp_keys : readOnly mcp_keys.
Proof. intros w. reflexivity. Qed.

Lemma readOnly_if {A} (b : bool) (m1 m2 : M A) :
  readOnly m1 -> readOnly m2 -> readOnly (if b then m1 else m2).
Proof. now destruct b. Qed.

Create HintDb frame.
#[export] Hint Resolve readOnly_ret readOnly_throw readOnly_eval readOnly_mcp_has
  readOnly_mcp_entries readOnly_mcp_keys : frame.

(** Walks through a handler: binds, conditionals and [try] blocks. *)
Ltac frame :=
  repeat first
    [ progress intros
    | apply readOnly_bind
    | apply readOnly_try_catch
    | apply readOnly_if
    | solve [ auto with frame ] ].

Lemma readOnly_getAllTools : readOnly getAllTools.
Proof. unfold getAllTools. frame. Qed.

Lemma readOnly_getAllResources : readOnly getAllResources.
Proof. unfold getAllResources. frame. Qed.

Lemma readOnly_callTool (name args : JsValue) : readOnly (callTool name args).
Proof. unfold callTool. frame. Qed.

Lemma readOnly_readResource (uri : JsValue) : readOnly (readResource uri).
Proof. unfold readResource. frame. Qed.

#[export] Hint Resolve readOnly_getAllTools readOnly_getAllResources
  readOnly_callTool readOnly_readResource : frame.

Lemma readOnly_handleRequest (method params : JsValue) :
  readOnly (handleRequest method params).
Proof. unfold handleRequest. frame. Qed.

Lemma readOnly_route (r : HttpRequest) : readOnly (route r).
Proof.
  destruct r; simpl;
    unfold getHealth, getTools, postTool, getResources, getResource,
           json, internalError; frame.
Qed.

(** Every HTTP request gets one reply: a route returns, with status 200 or
    with status 500, and never throws. *)
Lemma route_always_replies (r : HttpRequest) (w : World) :
  exists reply, route r w = (normal reply, w).
Proof.
  pose proof (readOnly_route r w) as Hw.
  destruct (route r w) as [[e | reply] w'] eqn:Hr; simpl in Hw; subst w'.
  - exfalso. destruct r; simpl in Hr;
      unfold getHealth, getTools, postTool, getResources, getResource,
             try_catch, internalError, json in Hr.
    + discriminate.
    + destruct (bind getAllTools _ w) as [[e0 | a] w0]; discriminate.
    + destruct (bind (eval (getProp requestBody "arguments")) _ w)
        as [[e0 | a] w0]; discriminate.
    + destruct (bind getAllResources _ w) as [[e0 | a] w0]; discriminate.
    + destruct (bind (readResource _) _ w) as [[e0 | a] w0]; discriminate.
  - now exists reply.
Qed.

(** ** The capability lists *)

Lemma tools_loop (entries : list (string * RepoData)) (acc : list Tool.t) :
  fold_left
    (fun tools (entry : string * RepoData) =>
       let (repoName, repoData) := entry in
       if isRunning repoData
       then (tools ++ [searchTool repoName]) ++ [listTool repoName]
       else tools)
    entries acc
  = acc ++ flat_map toolsOf (runningNames entries).
Proof.
  revert acc. induction entries as [| [repoName repoData] entries IH]; intros acc.
  - simpl. now rewrite app_nil_r.
  - simpl. unfold runningNames. simpl.
    destruct (isRunning repoData); rewrite IH.
    + simpl. rewrite <- !app_assoc. reflexivity.
    + reflexivity.
Qed.

Lemma resources_loop (entries : list (string * RepoData)) (acc : list Resource.t) :
  fold_left
    (fun resources (entry : string * RepoData) =>
       let (repoName, repoData) := entry in
       if isRunning repoData
       then resources ++ [rootResource repoName]
       else resources)
    entries acc
  = acc ++ map rootResource (runningNames entries).
Proof.
  revert acc. induction entries as [| [repoName repoData] entries IH]; intros acc.
  - simpl. now rewrite app_nil_r.
  - simpl. unfold runningNames. simpl.
    destruct (isRunning repoData); rewrite IH.
    + simpl. rewrite <- app_assoc. reflexivity.
    + reflexivity.
Qed.

Lemma getAllTools_eq (w : World) :
  getAllTools w = (normal (flat_map toolsOf (runningNames (mcpProcesses w))), w).
Proof.
  unfold getAllTools, bind, mcp_entries, ret, JsMap.entries, normal.
  cbv beta iota. now rewrite tools_loop.
Qed.

Lemma getAllResources_eq (w : World) :
  getAllResources w = (normal (map rootResource (runningNames (mcpProcesses w))), w).
Proof.
  unfold getAllResources, bind, mcp_entries, ret, JsMap.entries, normal.
  cbv beta iota. now rewrite resources_loop.
Qed.

Lemma toolsOf_count (names : list string) :
  length (flat_map toolsOf names) = 2 * length names.
Proof. induction names as [| n names IH]; simpl; [reflexivity | lia]. Qed.

(** Deleting a key removes it from the running names and keeps the others
    in their order. *)
Lemma runningNames_delete (key : string) (registry : Registry) :
  runningNames (JsMap.delete key registry) =
  filter (fun n => negb (String.eqb n key)) (runningNames registry).
Proof.
  unfold runningNames.
  induction registry as [| [k v] registry IH]; simpl.
  - reflexivity.
  - destruct (String.eqb k key) eqn:Hk; simpl.
    + destruct (isRunning v); simpl; [rewrite Hk; simpl |]; exact IH.
    + destruct (isRunning v); simpl; [rewrite Hk; simpl; f_equal |]; exact IH.
Qed.

Lemma runningNames_delete_absent (key : string) (registry : Registry) :
  ~ In key (runningNames (JsMap.delete key registry)).
Proof.
  rewrite runningNames_delete. intros H. apply filter_In in H as [_ H].
  now rewrite String.eqb_refl in H.
Qed.

(** Setting a key that the map does not hold appends the entry. *)
Lemma set_fresh {V} (key : string) (value : V) (m : JsMap.t V) :
  JsMap.has key m = false -> JsMap.set key value m = m ++ [(key, value)].
Proof.
  unfold JsMap.has. induction m as [| [k v] m IH]; simpl; intros H.
  - reflexivity.
  - destruct (String.eqb k key); [discriminate |]. now rewrite IH.
Qed.

Lemma runningNames_app (r1 r2 : Registry) :
  runningNames (r1 ++ r2) = runningNames r1 ++ runningNames r2.
Proof. unfold runningNames. now rewrite filter_app, map_app. Qed.

(** ** Qualified names determine their repository *)

Lemma list_ascii_of_string_append (a b : string) :
  list_ascii_of_string (a ++ b) = (list_ascii_of_string a ++ list_ascii_of_string b)%list.
Proof. induction a as [| c a IH]; simpl; [reflexivity | now rewrite IH]. Qed.

Lemma list_ascii_of_string_inj (a b : string) :
  list_ascii_of_string a = list_ascii_of_string b -> a = b.
Proof.
  intros H. rewrite <- (string_of_list_ascii_of_string a),
                    <- (string_of_list_ascii_of_string b).
  now rewrite H.
Qed.

Lemma append_cancel_tail (a b suffix : string) :
  (a ++ suffix = b ++ suffix)%string -> a = b.
Proof.
  intros H. apply list_ascii_of_string_inj.
  apply (f_equal list_ascii_of_string) in H.
  rewrite !list_ascii_of_string_append in H.
  now apply app_inv_tail in H.
Qed.

Lemma search_name_not_list_name (a b : string) :
  (a ++ "_search" <> b ++ "_list")%string.
Proof.
  intros H. apply (f_equal list_ascii_of_string) in H.
  rewrite !list_ascii_of_string_append in H.
  change (list_ascii_of_string "_search")
    with (list_ascii_of_string "_searc" ++ ["h"%char])%list in H.
  change (list_ascii_of_string "_list")
    with (list_ascii_of_string "_lis" ++ ["t"%char])%list in H.
  rewrite !app_assoc in H. apply app_inj_tail in H as [_ H]. discriminate.
Qed.

(** No tool of the repositories [names] carries the qualified name of a
    repository outside [names]. *)
Lemma tools_name_other (names : list string) (key : string) (tool : Tool.t) :
  ~ In key names ->
  In tool (flat_map toolsOf names) ->
  (Tool.name tool <> key ++ "_search" /\ Tool.name tool <> key ++ "_list")%string.
Proof.
  intros Hkey Hin. apply in_flat_map in Hin as [n [Hn Htool]].
  assert (n <> key) by (intros ->; contradiction).
  destruct Htool as [<- | [<- | []]]; simpl; split; intros Heq.
  - now apply append_cancel_tail in Heq.
  - now apply search_name_not_list_name in Heq.
  - symmetry in Heq. now apply search_name_not_list_name in Heq.
  - now apply append_cancel_tail in Heq.
Qed.

Lemma resources_uri_other (names : list string) (key : string) (r : Resource.t) :
  ~ In key names ->
  In r (map rootResource names) ->
  (Resource.uri r <> "mcp://" ++ key ++ "/")%string.
Proof.
  intros Hkey Hin. apply in_map_iff in Hin as [n [<- Hn]].
  assert (n <> key) by (intros ->; contradiction).
  simpl. intros Heq. injection Heq as Heq.
  now apply append_cancel_tail in Heq.
Qed.

(** ** Start-up *)

Section Startup.

Variable env : list (string * JsValue).
Variable spawnThrows : string -> list string -> option JsError.

(** A turn of the loop ends in the [catch] block: reading [process] inside
    the initializer of [const process] throws before [spawn] is called. *)
Lemma startBackend_eq (name url : string) (w : World) :
  startBackend env spawnThrows name url w =
  (normal tt,
   {| mcpProcesses := mcpProcesses w;
      console := (console w ++ [Log ("Starting MCP server for " ++ name ++ "...")])
                   ++ [LogError ("Failed to start MCP server for " ++ name ++ ":")
                                (Some processNotInitialized)];
      children := children w;
      supervised := supervised w;
      sent := sent w |}).
Proof. reflexivity. Qed.

(** In scopes where [process] resolves to an object, the same body spawns
    the bridge and registers it as running, at the end of the map when the
    name is new. *)
Lemma startBackendIn_registers
      (scope : ScopeChain) (processObject processEnv : JsValue)
      (name url : string) (w : World) :
  resolve scope "process" = normal processObject ->
  getProp processObject "env" = normal processEnv ->
  spawnThrows "npx" ["mcp-remote"; url] = None ->
  startBackendIn spawnThrows scope name url w =
  (normal tt,
   {| mcpProcesses := JsMap.set name (registered url) (mcpProcesses w);
      console := console w ++ [Log ("Starting MCP server for " ++ name ++ "...")];
      children := children w ++ [mkChild "npx" ["mcp-remote"; url]];
      supervised := supervised w ++ [name];
      sent := sent w |}).
Proof.
  intros Hprocess Henv Hspawn.
  unfold startBackendIn, try_catch, bind, eval, spawn, console_log, normal in *.
  cbv beta iota. rewrite Hprocess. cbv beta iota. rewrite Henv. cbv beta iota.
  rewrite Hspawn. reflexivity.
Qed.

(** A [spawn] that throws is caught in its own turn: the registry is as it
    was and the failure is on the console. *)
Lemma startBackendIn_spawn_failure
      (scope : ScopeChain) (processObject processEnv : JsValue)
      (name url : string) (w : World) (e : JsError) :
  resolve scope "process" = normal processObject ->
  getProp processObject "env" = normal processEnv ->
  spawnThrows "npx" ["mcp-remote"; url] = Some e ->
  startBackendIn spawnThrows scope name url w =
  (normal tt,
   {| mcpProcesses := mcpProcesses w;
      console := (console w ++ [Log ("Starting MCP server for " ++ name ++ "...")])
                   ++ [LogError ("Failed to start MCP server for " ++ name ++ ":")
                                (Some e)];
      children := children w;
      supervised := supervised w;
      sent := sent w |}).
Proof.
  intros Hprocess Henv Hspawn.
  unfold startBackendIn, try_catch, bind, eval, spawn, console_log, console_error,
         normal in *.
  cbv beta iota. rewrite Hprocess. cbv beta iota. rewrite Henv. cbv beta iota.
  rewrite Hspawn. reflexivity.
Qed.

Lemma forEach_startBackend (config : list (string * string)) (w : World) :
  exists w',
    forEach config (fun entry => startBackend env spawnThrows (fst entry) (snd entry)) w
      = (normal tt, w')
    /\ mcpProcesses w' = mcpProcesses w
    /\ children w' = children w
    /\ supervised w' = supervised w
    /\ sent w' = sent w
    /\ length (console w') = length (console w) + 2 * length config.
Proof.
  revert w. induction config as [| [name url] config IH]; intros w.
  - exists w. simpl. repeat split; lia.
  - simpl. unfold bind at 1. rewrite startBackend_eq.
    match goal with |- context [forEach config ?f ?w0] =>
      destruct (IH w0) as [w' (Hrun & Hreg & Hch & Hsup & Hsent & Hlog)]
    end.
    exists w'. rewrite Hrun. simpl in *.
    repeat split; try assumption.
    rewrite Hlog, !length_app. simpl. lia.
Qed.

Lemma initializeMCPServers_eq (config : list (string * string)) (w : World) :
  exists w',
    initializeMCPServers env spawnThrows config w = (normal tt, w')
    /\ mcpProcesses w' = mcpProcesses w
    /\ children w' = children w
    /\ supervised w' = supervised w
    /\ sent w' = sent w.
Proof.
  unfold initializeMCPServers, bind at 1. simpl.
  match goal with |- context [forEach config ?f ?w0] =>
    destruct (forEach_startBackend config w0) as [w' (Hrun & Hreg & Hch & Hsup & Hsent & _)]
  end.
  exists w'. rewrite Hrun. simpl in *. auto.
Qed.

End Startup.

(** ** The socket listener *)

Section Listener.

Variable env : list (string * JsValue).

(** No scope around the [catch] block declares [request]. *)
Lemma request_not_in_scope :
  resolve (catchScope env) "request" = abrupt requestNotDefined.
Proof. reflexivity. Qed.

(** When the [try] block throws, the listener sends nothing and its promise
    is rejected with the [ReferenceError] of the [catch] block. *)
Lemma onMessage_failure (m : WsMessage) (w : World) (e : JsError) :
  fst (attempt m w) = abrupt e ->
  onMessage env m w = (abrupt requestNotDefined, w).
Proof.
  intros Hfail. unfold onMessage, try_catch. fold (attempt m).
  assert (Hw : snd (attempt m w) = w).
  { unfold attempt in *. unfold bind, eval in *.
    destruct (JSON_parse m) as [e0 | request]; [reflexivity |].
    destruct (getProp request "method") as [e0 | method]; [reflexivity |].
    destruct (getProp request "params") as [e0 | params]; [reflexivity |].
    pose proof (readOnly_handleRequest method params w) as Hro.
    destruct (handleRequest method params w) as [[e0 | response] w'];
      simpl in Hro; subst w'; [reflexivity |].
    destruct (getProp request "id") as [e0 | requestId]; [reflexivity |].
    simpl in Hfail. discriminate. }
  destruct (attempt m w) as [[e0 | []] w']; simpl in *; subst w'.
  - reflexivity.
  - discriminate.
Qed.


(** The listener never sends more than one envelope, and never touches
    anything but the socket. *)
Lemma onMessage_at_most_one (m : WsMessage) (w : World) :
  snd (onMessage env m w) = w
  \/ exists envelope, snd (onMessage env m w) = withSent w envelope.
Proof.
  destruct (fst (attempt m w)) as [e | []] eqn:Hattempt.
  - left. now rewrite (onMessage_failure m w Hattempt).
  - right. unfold onMessage, try_catch. fold (attempt m).
    unfold attempt in *. unfold bind, eval in *.
    destruct (JSON_parse m) as [e0 | request]; [discriminate |].
    destruct (getProp request "method") as [e0 | method]; [discriminate |].
    destruct (getProp request "params") as [e0 | params]; [discriminate |].
    pose proof (readOnly_handleRequest method params w) as Hro.
    destruct (handleRequest method params w) as [[e0 | response] w'];
      simpl in Hro; subst w'; [discriminate |].
    destruct (getProp request "id") as [e0 | requestId]; [discriminate |].
    eexists. reflexivity.
Qed.

Lemma onMessage_registry (m : WsMessage) (w : World) :
  mcpProcesses (snd (onMessage env m w)) = mcpProcesses w.
Proof.
  destruct (onMessage_at_most_one m w) as [-> | [envelope ->]]; reflexivity.
Qed.

End Listener.

(** ** [callTool], branch by branch *)

Section CallTool.

Variable name : string.
Variable args : JsValue.
Variable w : World.

Let repoName : string := JsString.before underscore name.
Let action : option string :=
  option_map (JsString.before underscore) (JsString.after underscore name).

Lemma callTool_pieces :
  callTool (JStr name) args w =
  (if negb (JsMap.has repoName (mcpProcesses w))
   then throw (Error ("Repository " ++ repoName ++ " not available"))
   else if isCase action "search" then
     query <- eval (getProp args "query") ;;
     queryText <- eval (toStr query) ;;
     ret (SearchResults
            [ {| hit_path := "/" ++ repoName ++ "/example.md";
                 hit_content := "Search results for " ++ JsString.dquote ++ queryText
                                  ++ JsString.dquote ++ " in " ++ repoName;
                 hit_score := "0.95" |} ])
   else if isCase action "list" then
     path1 <- eval (getProp args "path") ;;
     pathText1 <- eval (toStr path1) ;;
     path2 <- eval (getProp args "path") ;;
     pathText2 <- eval (toStr path2) ;;
     ret (FileList
            [ {| file_name := "README.md"; file_type := "file";
                 file_path := pathText1 ++ "/README.md" |};
              {| file_name := "docs"; file_type := "directory";
                 file_path := pathText2 ++ "/docs/" |} ])
   else throw (Error ("Unknown action: " ++ interpolate action))) w.
Proof.
  unfold callTool. unfold bind at 1. unfold eval at 1, callSplit, normal.
  cbv beta iota zeta. rewrite (split_first_rest underscore name).
  unfold action, repoName.
  destruct (JsString.after underscore name) as [rest |]; cbn [nth_error option_map].
  - rewrite (split_first_rest underscore rest). reflexivity.
  - reflexivity.
Qed.





End CallTool.

(** ** The states of the registry *)

Section MapInvariant.

Variable V : Type.
Variable P : V -> Prop.

Lemma set_Forall (key : string) (value : V) (m : JsMap.t V) :
  P value ->
  Forall (fun entry => P (snd entry)) m ->
  Forall (fun entry => P (snd entry)) (JsMap.set key value m).
Proof.
  intros Hv Hm. induction Hm as [| [k v] m Hkv Hm IH]; simpl.
  - constructor; [exact Hv | constructor].
  - destruct (String.eqb k key); constructor; auto.
Qed.

Lemma delete_Forall (key : string) (m : JsMap.t V) :
  Forall (fun entry => P (snd entry)) m ->
  Forall (fun entry => P (snd entry)) (JsMap.delete key m).
Proof.
  intros Hm. induction Hm as [| [k v] m Hkv Hm IH]; simpl.
  - constructor.
  - destruct (String.eqb k key); [exact IH | constructor; auto].
Qed.


End MapInvariant.

Lemma reachable_all_running (registry : Registry) :
  RegistryReachable registry ->
  Forall (fun entry => status (snd entry) = "running") registry.
Proof.
  induction 1 as [| name url child registry _ IH | name registry _ IH].
  - constructor.
  - now apply (@set_Forall RepoData (fun data => status data = "running")).
  - now apply (@delete_Forall RepoData (fun data => status data = "running")).
Qed.

(** ** The event loop keeps the registry within its reachable states *)

Section Loop.

Variable env : list (string * JsValue).
Variable port : string.
Variable spawnThrows : string -> list string -> option JsError.

Lemma settle_world {A} (m : M A) (w : World) : worldOf (settle m w) = snd (m w).
Proof. unfold settle. now destruct (m w) as [[e | a] w']. Qed.

Lemma listener_reachable (e : Event) (w : World) :
  RegistryReachable (mcpProcesses w) ->
  RegistryReachable (mcpProcesses (snd (listener env port spawnThrows e w))).
Proof.
  intros Hw.
  destruct e as [| name data | name data | name code | m | r |]; unfold listener.
  - unfold bind at 1, console_log at 1, normal. cbv beta iota.
    match goal with |- context [initializeMCPServers _ _ _ ?w0] =>
      destruct (initializeMCPServers_eq env spawnThrows REPOSITORIES w0)
        as [w' (Hrun & Hreg & _)]
    end.
    rewrite Hrun. simpl. now rewrite Hreg.
  - unfold whenSupervised. destruct (existsb _ _); exact Hw.
  - unfold whenSupervised. destruct (existsb _ _); exact Hw.
  - unfold whenSupervised. destruct (existsb _ _); [| exact Hw].
    simpl. now apply reach_delete.
  - now rewrite onMessage_registry.
  - unfold bind. pose proof (readOnly_route r w) as Hro.
    destruct (route r w) as [[e | reply] w']; simpl in Hro; subst w'; exact Hw.
  - exact Hw.
Qed.

Lemma deliver_world (p : Process) (e : Event) :
  worldOf (deliver env port spawnThrows p e) = worldOf p
  \/ worldOf (deliver env port spawnThrows p e)
     = snd (listener env port spawnThrows e (worldOf p)).
Proof.
  destruct p as [w | w reason | w reason]; simpl.
  - right. apply settle_world.
  - destruct e; auto.
  - left. reflexivity.
Qed.

Lemma deliver_reachable (p : Process) (e : Event) :
  RegistryReachable (mcpProcesses (worldOf p)) ->
  RegistryReachable (mcpProcesses (worldOf (deliver env port spawnThrows p e))).
Proof.
  intros Hp. destruct (deliver_world p e) as [-> | ->].
  - exact Hp.
  - now apply listener_reachable.
Qed.

(** A listener finds the registry empty, no child and no listener attached,
    and leaves them so. *)
Lemma listener_keeps_empty (e : Event) (w : World) :
  mcpProcesses w = JsMap.empty /\ children w = [] /\ supervised w = [] ->
  mcpProcesses (snd (listener env port spawnThrows e w)) = JsMap.empty
  /\ children (snd (listener env port spawnThrows e w)) = []
  /\ supervised (snd (listener env port spawnThrows e w)) = [].
Proof.
  intros (Hreg & Hch & Hsup).
  destruct e as [| n data | n data | n code | m | r |]; unfold listener.
  - unfold bind, console_log, normal. cbv beta iota.
    match goal with |- context [initializeMCPServers _ _ _ ?w0] =>
      destruct (initializeMCPServers_eq env spawnThrows REPOSITORIES w0)
        as [w' (Hrun & Hreg' & Hch' & Hsup' & _)]
    end.
    rewrite Hrun. simpl snd. rewrite Hreg', Hch', Hsup'. simpl. auto.
  - unfold whenSupervised. rewrite Hsup. simpl. auto.
  - unfold whenSupervised. rewrite Hsup. simpl. auto.
  - unfold whenSupervised. rewrite Hsup. simpl. auto.
  - destruct (onMessage_at_most_one env m w) as [-> | [envelope ->]]; simpl; auto.
  - unfold bind. pose proof (readOnly_route r w) as Hro.
    destruct (route r w) as [[e | reply] w']; simpl in Hro; subst w'; simpl; auto.
  - simpl. auto.
Qed.

Lemma run_keeps_empty (events : list Event) :
  mcpProcesses (worldOf (run env port spawnThrows events)) = JsMap.empty
  /\ children (worldOf (run env port spawnThrows events)) = []
  /\ supervised (worldOf (run env port spawnThrows events)) = [].
Proof.
  unfold run.
  assert (H0 : mcpProcesses (worldOf (Alive initialWorld)) = JsMap.empty
               /\ children (worldOf (Alive initialWorld)) = []
               /\ supervised (worldOf (Alive initialWorld)) = [])
    by (simpl; auto).
  revert H0. generalize (Alive initialWorld).
  induction events as [| e events IH]; intros p Hp; simpl.
  - exact Hp.
  - apply IH. destruct (deliver_world p e) as [-> | ->].
    + exact Hp.
    + now apply listener_keeps_empty.
Qed.

Lemma run_reachable (events : list Event) :
  RegistryReachable (mcpProcesses (worldOf (run env port spawnThrows events))).
Proof.
  unfold run.
  assert (H : RegistryReachable (mcpProcesses (worldOf (Alive initialWorld))))
    by apply reach_empty.
  revert H. generalize (Alive initialWorld).
  induction events as [| e events IH]; intros p Hp; simpl.
  - exact Hp.
  - apply IH. now apply deliver_reachable.
Qed.

(** Once terminated, the process handles nothing more. *)
Lemma terminated_stays (w : World) (reason : JsError) (events : list Event) :
  fold_left (deliver env port spawnThrows) events (Terminated w reason)
  = Terminated w reason.
Proof. induction events as [| e events IH]; simpl; [reflexivity | exact IH]. Qed.

End Loop.

(** ** The steps of the program and the registry *)


Section MapLaws.

Variable V : Type.

Lemma get_delete_same (key : string) (m : JsMap.t V) :
  JsMap.get key (JsMap.delete key m) = None.
Proof.
  induction m as [| [k v] m IH]; simpl.
  - reflexivity.
  - destruct (String.eqb k key) eqn:Hk; simpl; [exact IH | now rewrite Hk].
Qed.

Lemma get_delete_other (key other : string) (m : JsMap.t V) :
  other <> key ->
  JsMap.get other (JsMap.delete key m) = JsMap.get other m.
Proof.
  intros Hneq. induction m as [| [k v] m IH]; simpl.
  - reflexivity.
  - destruct (String.eqb k key) eqn:Hk; simpl.
    + apply String.eqb_eq in Hk. subst k.
      apply not_eq_sym in Hneq. apply String.eqb_neq in Hneq.
      now rewrite Hneq.
    + now rewrite IH.
Qed.

Lemma delete_absent (key : string) (m : JsMap.t V) :
  JsMap.has key m = false -> JsMap.delete key m = m.
Proof.
  unfold JsMap.has. induction m as [| [k v] m IH]; simpl; intros H.
  - reflexivity.
  - destruct (String.eqb k key); [discriminate | now rewrite IH].
Qed.

Lemma delete_set (key : string) (value : V) (m : JsMap.t V) :
  JsMap.delete key (JsMap.set key value m) = JsMap.delete key m.
Proof.
  induction m as [| [k v] m IH]; simpl.
  - now rewrite String.eqb_refl.
  - destruct (String.eqb k key) eqn:Hk; simpl; rewrite Hk; [reflexivity | now rewrite IH].
Qed.

Lemma keys_has (key : string) (m : JsMap.t V) :
  In key (JsMap.keys m) <-> JsMap.has key m = true.
Proof.
  unfold JsMap.has, JsMap.keys. induction m as [| [k v] m IH]; simpl.
  - split; [contradiction | discriminate].
  - destruct (String.eqb_spec k key) as [-> | Hneq].
    + split; auto.
    + rewrite <- IH. split; [intros [H | H]; [contradiction | exact H] | auto].
Qed.

Lemma keys_set_present (key : string) (value : V) (m : JsMap.t V) :
  JsMap.has key m = true -> JsMap.keys (JsMap.set key value m) = JsMap.keys m.
Proof.
  unfold JsMap.has, JsMap.keys. induction m as [| [k v] m IH]; simpl; intros H.
  - discriminate.
  - destruct (String.eqb k key); simpl; [reflexivity | now rewrite IH].
Qed.

Lemma keys_delete (key : string) (m : JsMap.t V) :
  JsMap.keys (JsMap.delete key m) =
  filter (fun k => negb (String.eqb k key)) (JsMap.keys m).
Proof.
  unfold JsMap.keys. induction m as [| [k v] m IH]; simpl.
  - reflexivity.
  - destruct (String.eqb k key); simpl; [exact IH | now rewrite IH].
Qed.

End MapLaws.


Lemma all_running_names (registry : Registry) :
  Forall (fun entry => status (snd entry) = "running") registry ->
  runningNames registry = JsMap.keys registry.
Proof.
  intros Hall. unfold runningNames, JsMap.keys. f_equal.
  induction Hall as [| entry rest Hentry Hall IH]; simpl.
  - reflexivity.
  - replace (isRunning (snd entry)) with true
      by (unfold isRunning; now rewrite Hentry).
    now rewrite IH.
Qed.




(* ===================================================================== *)
(** * The claims *)
(* ===================================================================== *)

(** C1.  A message that is not JSON, and a message whose JSON lacks the
    required fields, each leave the listener in its [catch] block, where
    reading [request] throws: no envelope is sent on the socket, and the
    promise of the listener is rejected with that [ReferenceError]. *)
Theorem malformed_message_gets_no_reply
    (env : list (string * JsValue)) (raw : string) (w : World) :
  onMessage env (Malformed raw) w = (abrupt requestNotDefined, w)
  /\ onMessage env (Parsed (JObj [])) w = (abrupt requestNotDefined, w)
  /\ sent (snd (onMessage env (Malformed raw) w)) = sent w
  /\ sent (snd (onMessage env (Parsed (JObj [])) w)) = sent w.
Proof.
  assert (H1 : onMessage env (Malformed raw) w = (abrupt requestNotDefined, w))
    by reflexivity.
  assert (H2 : onMessage env (Parsed (JObj [])) w = (abrupt requestNotDefined, w))
    by reflexivity.
  split; [exact H1 |]. split; [exact H2 |]. split.
  - now rewrite H1.
  - now rewrite H2.
Qed.

(** C2.  Whatever the configuration, [initializeMCPServers] returns without
    having called [spawn] and without having written the registry: each turn
    of its loop throws on [process.env] and is logged as a failure.  After
    start-up with the configuration of [server.js] the registry is empty and
    the tool list is empty. *)
Theorem initializeMCPServers_registers_nothing
    (env : list (string * JsValue)) (port : string)
    (spawnThrows : string -> list string -> option JsError)
    (config : list (string * string)) (w : World) :
  let w' := snd (initializeMCPServers env spawnThrows config w) in
  fst (initializeMCPServers env spawnThrows config w) = normal tt
  /\ mcpProcesses w' = mcpProcesses w
  /\ children w' = children w
  /\ supervised w' = supervised w
  /\ (forall name url,
        console (snd (startBackend env spawnThrows name url w)) =
        (console w ++ [Log ("Starting MCP server for " ++ name ++ "...")])
          ++ [LogError ("Failed to start MCP server for " ++ name ++ ":")
                       (Some processNotInitialized)])
  /\ mcpProcesses (worldOf (run env port spawnThrows [Listening])) = JsMap.empty
  /\ fst (getTools (worldOf (run env port spawnThrows [Listening])))
     = normal {| statusCode := 200; body := ToolsBody [] |}.
Proof.
  destruct (initializeMCPServers_eq env spawnThrows config w)
    as [w1 (Hrun & Hreg & Hch & Hsup & _)].
  cbv zeta. rewrite Hrun. simpl fst. simpl snd.
  split; [reflexivity |]. split; [exact Hreg |]. split; [exact Hch |].
  split; [exact Hsup |]. split; [reflexivity |].
  split; reflexivity.
Qed.

(** C3.  A request for a method the router does not know, whatever its
    [id], gets no reply on the socket: the error of the router is caught,
    and the [catch] block throws before it sends. *)
Theorem unknown_method_request_gets_no_reply
    (env : list (string * JsValue)) (requestId : JsValue) (w : World) :
  let request :=
    JObj [("jsonrpc", JStr "2.0"); ("id", requestId); ("method", JStr "nope")] in
  fst (handleRequest (JStr "nope") JUndefined w) = abrupt (Error "Unknown method: nope")
  /\ onMessage env (Parsed request) w = (abrupt requestNotDefined, w)
  /\ sent (snd (onMessage env (Parsed request) w)) = sent w.
Proof.
  cbv zeta.
  assert (H : onMessage env
                (Parsed (JObj [("jsonrpc", JStr "2.0"); ("id", requestId);
                               ("method", JStr "nope")])) w
              = (abrupt requestNotDefined, w)) by reflexivity.
  split; [reflexivity |]. split; [exact H |]. now rewrite H.
Qed.

(** C4, as amended.  [callTool] splits the name at every separator and
    keeps the first two pieces: the repository is the text before the first
    separator (the whole name when there is none), the action is the text
    between the first and the second separator (up to the end of the name
    when there is no second one, [undefined] when there is no separator at
    all). *)
Theorem tool_name_keeps_first_two_pieces (name : string) :
  parseToolName name =
  (Some (JsString.before underscore name),
   match JsString.after underscore name with
   | Some remainder => Some (JsString.before underscore remainder)
   | None => None
   end).
Proof.
  rewrite parseToolName_pieces.
  now destruct (JsString.after underscore name).
Qed.

(** C4, as stated, fails on a name with two separators: the action is cut
    at the second separator instead of running to the end of the name. *)
Lemma tool_name_split_counterexample :
  parseToolName "alpha_search_extra" <> splitOnFirstSeparator "alpha_search_extra".
Proof. vm_compute. discriminate. Qed.

(** Arguments have to be there for the two recognised actions: with
    [context7] registered, a call for [context7_search] without [arguments]
    throws a [TypeError] on [args.query], in [callTool] and through
    [handleRequest]; the HTTP route, which puts an empty object in the place
    of missing arguments, answers the same call with a result. *)
Lemma callTool_search_without_arguments :
  let w := worldWith context7Only in
  let failure :=
    TypeError "Cannot read properties of undefined (reading 'query')" in
  JsMap.has "context7" (mcpProcesses w) = true
  /\ callTool (JStr "context7_search") JUndefined w = (abrupt failure, w)
  /\ handleRequest (JStr "tools/call") (JObj [("name", JStr "context7_search")]) w
     = (abrupt failure, w)
  /\ postTool "context7_search" (JObj []) w
     = (normal
          {| statusCode := 200;
             body := ResultBody
                       (SearchResults
                          [ {| hit_path := "/context7/example.md";
                               hit_content :=
                                 "Search results for " ++ JsString.dquote ++ "undefined"
                                   ++ JsString.dquote ++ " in context7";
                               hit_score := "0.95" |} ]) |}, w).
Proof. cbv zeta. repeat split. Qed.



(** C6.  In every state of the registry, [getAllTools] lists a search tool
    and a list tool for each running entry and [getAllResources] one
    resource for each, in the iteration order of the map; the search tool
    requires a string [query] and offers a numeric [limit] with default 10,
    the list tool offers a string [path] with default [/].  Both lists are
    computed from the registry as it is: after a [delete] the removed
    repository has no tool and no resource left, and after the [set] of a
    new repository its descriptors come last. *)
Theorem capability_lists_follow_registry (w : World) (key : string) :
  let registry := mcpProcesses w in
  getAllTools w = (normal (flat_map (fun n => [searchTool n; listTool n])
                                    (runningNames registry)), w)
  /\ getAllResources w = (normal (map rootResource (runningNames registry)), w)
  /\ (forall tools, fst (getAllTools w) = normal tools ->
        length tools = 2 * length (runningNames registry))
  /\ (forall resources, fst (getAllResources w) = normal resources ->
        length resources = length (runningNames registry))
  /\ (Tool.name (searchTool key) = (key ++ "_search")%string
      /\ Schema.required (Tool.inputSchema (searchTool key)) = Some ["query"]
      /\ Schema.properties (Tool.inputSchema (searchTool key)) =
           [ ("query", Property.mk "string" (Some "Search query") None);
             ("limit", Property.mk "number" None (Some (JNum "10"))) ])
  /\ (Tool.name (listTool key) = (key ++ "_list")%string
      /\ Schema.required (Tool.inputSchema (listTool key)) = None
      /\ Schema.properties (Tool.inputSchema (listTool key)) =
           [ ("path", Property.mk "string" None (Some (JStr "/"))) ])
  /\ (let after := snd (mcp_delete key w) in
      getAllTools after =
        (normal (flat_map (fun n => [searchTool n; listTool n])
                   (filter (fun n => negb (String.eqb n key)) (runningNames registry))),
         after)
      /\ getAllResources after =
           (normal (map rootResource
                      (filter (fun n => negb (String.eqb n key)) (runningNames registry))),
            after)
      /\ (forall tools tool, fst (getAllTools after) = normal tools -> In tool tools ->
            Tool.name tool <> (key ++ "_search")%string /\ Tool.name tool <> (key ++ "_list")%string)
      /\ (forall resources r, fst (getAllResources after) = normal resources ->
            In r resources -> Resource.uri r <> ("mcp://" ++ key ++ "/")%string))
  /\ (forall address child,
        JsMap.has key registry = false ->
        let after :=
          snd (mcp_set key {| process := child; url := address; status := "running" |} w) in
        getAllTools after =
          (normal (flat_map (fun n => [searchTool n; listTool n]) (runningNames registry)
                     ++ [searchTool key; listTool key]), after)
        /\ getAllResources after =
             (normal (map rootResource (runningNames registry) ++ [rootResource key]),
              after)).
Proof.
  cbv zeta.
  split; [apply getAllTools_eq |].
  split; [apply getAllResources_eq |].
  split.
  { intros tools. rewrite getAllTools_eq. intros [= <-]. apply toolsOf_count. }
  split.
  { intros resources. rewrite getAllResources_eq. intros [= <-]. apply length_map. }
  split; [repeat split |].
  split; [repeat split |].
  split.
  { rewrite getAllTools_eq, getAllResources_eq. simpl mcpProcesses.
    rewrite runningNames_delete.
    split; [reflexivity |]. split; [reflexivity |]. split.
    - intros tools tool [= <-] Hin.
      apply tools_name_other with (names := filter (fun n => negb (String.eqb n key))
                                             (runningNames (mcpProcesses w))).
      + intros H. apply filter_In in H as [_ H]. now rewrite String.eqb_refl in H.
      + exact Hin.
    - intros resources r [= <-] Hin.
      apply resources_uri_other with (names := filter (fun n => negb (String.eqb n key))
                                                (runningNames (mcpProcesses w))).
      + intros H. apply filter_In in H as [_ H]. now rewrite String.eqb_refl in H.
      + exact Hin. }
  intros address child Hfresh.
  rewrite getAllTools_eq, getAllResources_eq. simpl mcpProcesses.
  rewrite (@set_fresh _ _ _ _ Hfresh), runningNames_app.
  unfold runningNames at 2 4. simpl. unfold isRunning. simpl.
  rewrite flat_map_app, map_app. split; reflexivity.
Qed.

(** The registration case of C6 at the scenario's registry: [gamma] is new
    to [alpha, beta], and its two tools come after theirs. *)
Lemma capability_lists_follow_registry_witness :
  JsMap.has "gamma" alphaBeta = false
  /\ fst (getAllTools
            (snd (mcp_set "gamma" (registered "http://z") (worldWith alphaBeta))))
     = normal [ searchTool "alpha"; listTool "alpha";
                searchTool "beta"; listTool "beta";
                searchTool "gamma"; listTool "gamma" ].
Proof.
  split; [reflexivity |].
  pose proof (capability_lists_follow_registry (worldWith alphaBeta) "gamma") as H.
  cbv zeta in H.
  destruct H as (_ & _ & _ & _ & _ & _ & _ & H).
  destruct (H "http://z" (mkChild "npx" ["mcp-remote"; "http://z"]) eq_refl) as [Htools _].
  unfold registered. rewrite Htools. reflexivity.
Defined.

(** C7, as amended.  For every string, [readResource] returns: it throws
    nothing, reads nothing from the registry and leaves the world as it was.
    The text of its payload names the third piece of the address split at
    its slashes as the repository ([undefined] when there are fewer than
    three pieces) and the pieces after it, joined by slashes, as the path.
    For an address that starts with [mcp://] these are the repository and
    the path that stripping the scheme and splitting the remainder at its
    first slash give. *)
Theorem readResource_always_succeeds (uri rest : string) (w : World) :
  readResource (JStr uri) w =
    (normal
       (Contents
          [ {| content_uri := JStr uri;
               content_mimeType := "text/plain";
               content_text :=
                 "Content of "
                   ++ JsString.join "/" (skipn 3 (JsString.split slash uri))
                   ++ " from "
                   ++ interpolate (nth_error (JsString.split slash uri) 2)
                   ++ " repository" |} ]),
     w)
  /\ parseResourceUri uri =
       (nth_error (JsString.split slash uri) 2,
        JsString.join "/" (skipn 3 (JsString.split slash uri)))
  /\ parseResourceUri ("mcp://" ++ rest) = parseAfterScheme ("mcp://" ++ rest)
  /\ parseResourceUri ("mcp://" ++ rest) =
       (Some (JsString.before slash rest),
        match JsString.after slash rest with
        | Some path => path
        | None => EmptyString
        end)
  /\ fst (readResource (JStr ("mcp://" ++ rest)) w) =
       normal
         (Contents
            [ {| content_uri := JStr ("mcp://" ++ rest);
                 content_mimeType := "text/plain";
                 content_text :=
                   "Content of "
                     ++ match JsString.after slash rest with
                        | Some path => path
                        | None => EmptyString
                        end
                     ++ " from " ++ JsString.before slash rest ++ " repository" |} ]).
Proof.
  assert (Hrun : forall u,
    readResource (JStr u) w =
      (normal
         (Contents
            [ {| content_uri := JStr u;
                 content_mimeType := "text/plain";
                 content_text :=
                   "Content of " ++ snd (parseResourceUri u) ++ " from "
                     ++ interpolate (fst (parseResourceUri u)) ++ " repository" |} ]),
       w)) by reflexivity.
  split; [reflexivity |]. split; [reflexivity |].
  split; [rewrite parseResourceUri_scheme; reflexivity |].
  split; [apply parseResourceUri_scheme |].
  rewrite Hrun, parseResourceUri_scheme. reflexivity.
Qed.

(** C7, as stated, fails on an address without the scheme: nothing is
    stripped from [alpha/readme.md], whose split at the first slash is
    [alpha] and [readme.md], but [readResource] finds no third piece and
    names the repository [undefined] with the empty path. *)
Lemma address_without_scheme_counterexample :
  parseResourceUri "alpha/readme.md" <> parseAfterScheme "alpha/readme.md"
  /\ parseAfterScheme "alpha/readme.md" = (Some "alpha", "readme.md")
  /\ fst (readResource (JStr "alpha/readme.md") initialWorld) =
     normal
       (Contents
          [ {| content_uri := JStr "alpha/readme.md";
               content_mimeType := "text/plain";
               content_text := "Content of  from undefined repository" |} ]).
Proof.
  split; [vm_compute; discriminate |]. split; reflexivity.
Qed.

(** C8.  Two calls of [getAllTools] in a row, with nothing between them,
    return the same list in the same order, and so do two [tools/list]
    requests. *)
Theorem tools_list_idempotent (w : World) (params1 params2 : JsValue) :
  (let first := getAllTools w in
   let second := getAllTools (snd first) in
   fst second = fst first /\ snd second = w)
  /\ (let first := handleRequest (JStr "tools/list") params1 w in
      let second := handleRequest (JStr "tools/list") params2 (snd first) in
      fst second = fst first /\ snd second = w).
Proof.
  cbv zeta. split.
  - rewrite (readOnly_getAllTools w). split; [reflexivity | apply readOnly_getAllTools].
  - rewrite (readOnly_handleRequest (JStr "tools/list") params1 w).
    split; [reflexivity | apply readOnly_handleRequest].
Qed.

(** C9.  Whatever the method and the parameters, and whether it returns or
    throws, [handleRequest] ends in the world it started in, and so does
    each operation it calls; the socket listener and the HTTP routes, which
    call them, leave the registry as it was. *)
Theorem router_never_writes_registry
    (env : list (string * JsValue))
    (method params name args uri : JsValue)
    (m : WsMessage) (r : HttpRequest) (w : World) :
  snd (handleRequest method params w) = w
  /\ mcpProcesses (snd (handleRequest method params w)) = mcpProcesses w
  /\ mcpProcesses (snd (getAllTools w)) = mcpProcesses w
  /\ mcpProcesses (snd (callTool name args w)) = mcpProcesses w
  /\ mcpProcesses (snd (getAllResources w)) = mcpProcesses w
  /\ mcpProcesses (snd (readResource uri w)) = mcpProcesses w
  /\ mcpProcesses (snd (onMessage env m w)) = mcpProcesses w
  /\ mcpProcesses (snd (route r w)) = mcpProcesses w.
Proof.
  split; [apply readOnly_handleRequest |].
  split; [now rewrite readOnly_handleRequest |].
  split; [now rewrite readOnly_getAllTools |].
  split; [now rewrite readOnly_callTool |].
  split; [now rewrite readOnly_getAllResources |].
  split; [now rewrite readOnly_readResource |].
  split; [apply onMessage_registry |].
  now rewrite readOnly_route.
Qed.



(* ===================================================================== *)
(** * Further properties of the handlers *)
(* ===================================================================== *)

(** ** Qualified names and resource addresses *)

Section Pieces.

Variable sep : ascii.

Lemma before_append (a b : string) :
  JsString.occurs sep a = false ->
  JsString.before sep (a ++ String sep b) = a.
Proof.
  induction a as [| c a IH]; simpl; intros H.
  - now rewrite Ascii.eqb_refl.
  - apply orb_false_iff in H as [Hc Ha]. rewrite Hc. now rewrite IH.
Qed.

Lemma after_append (a b : string) :
  JsString.occurs sep a = false ->
  JsString.after sep (a ++ String sep b) = Some b.
Proof.
  induction a as [| c a IH]; simpl; intros H.
  - now rewrite Ascii.eqb_refl.
  - apply orb_false_iff in H as [Hc Ha]. rewrite Hc. now apply IH.
Qed.

Lemma after_no_separator (s : string) :
  JsString.occurs sep s = false -> JsString.after sep s = None.
Proof.
  induction s as [| c s IH]; simpl; intros H.
  - reflexivity.
  - apply orb_false_iff in H as [Hc Hs]. rewrite Hc. now apply IH.
Qed.

End Pieces.

Lemma string_append_assoc (a b c : string) :
  ((a ++ b) ++ c = a ++ (b ++ c))%string.
Proof. induction a as [| x a IH]; simpl; [reflexivity | now rewrite IH]. Qed.

(** X1.  A qualified name built from a repository and an action, neither of
    which contains the separator, is taken apart by [callTool] into exactly
    that repository and that action. *)
Theorem qualified_name_round_trip (repo action : string) :
  JsString.occurs underscore repo = false ->
  JsString.occurs underscore action = false ->
  parseToolName (repo ++ "_" ++ action) = (Some repo, Some action).
Proof.
  intros Hrepo Haction. unfold parseToolName.
  rewrite (split_first_rest underscore (repo ++ "_" ++ action)).
  change (repo ++ "_" ++ action)%string with (repo ++ String underscore action)%string.
  rewrite (@before_append underscore repo action Hrepo),
          (@after_append underscore repo action Hrepo).
  rewrite (split_first_rest underscore action).
  rewrite (@before_no_separator underscore action Haction).
  reflexivity.
Qed.

Lemma qualified_name_round_trip_witness :
  parseToolName ("n8n-mcp" ++ "_" ++ "search") = (Some "n8n-mcp", Some "search").
Proof. apply qualified_name_round_trip; reflexivity. Defined.

(** X2.  An address built as [mcp://], a repository without a slash, a
    slash and any path is taken apart by [readResource] into that repository
    and that path, slashes of the path included. *)
Theorem resource_address_round_trip (repo path : string) :
  JsString.occurs slash repo = false ->
  parseResourceUri ("mcp://" ++ repo ++ "/" ++ path) = (Some repo, path).
Proof.
  intros Hrepo. rewrite parseResourceUri_scheme.
  change (repo ++ "/" ++ path)%string with (repo ++ String slash path)%string.
  now rewrite (@before_append slash repo path Hrepo),
              (@after_append slash repo path Hrepo).
Qed.

Lemma resource_address_round_trip_witness :
  parseResourceUri ("mcp://" ++ "context7" ++ "/" ++ "docs/api/index.md")
  = (Some "context7", "docs/api/index.md").
Proof. apply resource_address_round_trip; reflexivity. Defined.

(** X3.  Every resource that [getAllResources] lists can be read back: for
    a repository name without a slash, [readResource] on the listed address
    names that repository, with the empty path. *)
Theorem listed_resource_reads_back (repoName : string) (w : World) :
  JsString.occurs slash repoName = false ->
  readResource (JStr (Resource.uri (rootResource repoName))) w =
  (normal
     (Contents
        [ {| content_uri := JStr ("mcp://" ++ repoName ++ "/");
             content_mimeType := "text/plain";
             content_text := "Content of  from " ++ repoName ++ " repository" |} ]),
   w).
Proof.
  intros Hrepo.
  assert (Hparse : parseResourceUri ("mcp://" ++ repoName ++ "/") = (Some repoName, "")).
  { rewrite parseResourceUri_scheme.
    change (repoName ++ "/")%string with (repoName ++ String slash "")%string.
    now rewrite (@before_append slash repoName "" Hrepo),
                (@after_append slash repoName "" Hrepo). }
  change (readResource (JStr (Resource.uri (rootResource repoName))) w)
    with (normal
            (Contents
               [ {| content_uri := JStr ("mcp://" ++ repoName ++ "/");
                    content_mimeType := "text/plain";
                    content_text :=
                      "Content of "
                        ++ snd (parseResourceUri ("mcp://" ++ repoName ++ "/"))
                        ++ " from "
                        ++ interpolate (fst (parseResourceUri ("mcp://" ++ repoName ++ "/")))
                        ++ " repository" |} ]),
          w).
  rewrite Hparse. reflexivity.
Qed.

Lemma listed_resource_reads_back_witness :
  fst (readResource (JStr (Resource.uri (rootResource "n8n-workflows"))) initialWorld)
  = normal
      (Contents
         [ {| content_uri := JStr "mcp://n8n-workflows/";
              content_mimeType := "text/plain";
              content_text := "Content of  from n8n-workflows repository" |} ]).
Proof.
  rewrite (@listed_resource_reads_back "n8n-workflows" initialWorld eq_refl).
  reflexivity.
Defined.

(** X4.  An address without any slash has no third piece: [readResource]
    still returns, with the repository printed as [undefined] and the empty
    path. *)
Theorem address_without_slash_reads_undefined (uri : string) (w : World) :
  JsString.occurs slash uri = false ->
  readResource (JStr uri) w =
  (normal
     (Contents
        [ {| content_uri := JStr uri;
             content_mimeType := "text/plain";
             content_text := "Content of  from undefined repository" |} ]),
   w).
Proof.
  intros Hnone.
  unfold readResource, bind, eval, callSplit, ret, normal. cbv beta iota zeta.
  rewrite (split_first_rest slash uri), (@after_no_separator slash uri Hnone).
  reflexivity.
Qed.

Lemma address_without_slash_reads_undefined_witness :
  fst (readResource (JStr "context7") initialWorld)
  = normal
      (Contents
         [ {| content_uri := JStr "context7";
              content_mimeType := "text/plain";
              content_text := "Content of  from undefined repository" |} ]).
Proof.
  rewrite (@address_without_slash_reads_undefined "context7" initialWorld eq_refl).
  reflexivity.
Defined.

(** ** [callTool] and [handleRequest] *)

(** X5.  Every tool that [getAllTools] lists for a registered repository
    whose name has no separator can be called: with arguments whose [query]
    (or [path]) prints as a string, the search tool returns one hit naming
    the query and the repository, and the list tool returns the two entries
    under the path; the world is left as it was. *)
Theorem listed_tools_are_callable (repoName : string) (args : JsValue) (w : World) :
  JsMap.has repoName (mcpProcesses w) = true ->
  JsString.occurs underscore repoName = false ->
  (forall query queryText,
      getProp args "query" = normal query ->
      toStr query = normal queryText ->
      callTool (JStr (Tool.name (searchTool repoName))) args w =
      (normal (SearchResults
                 [ {| hit_path := "/" ++ repoName ++ "/example.md";
                      hit_content :=
                        "Search results for " ++ JsString.dquote ++ queryText
                          ++ JsString.dquote ++ " in " ++ repoName;
                      hit_score := "0.95" |} ]), w))
  /\ (forall path pathText,
        getProp args "path" = normal path ->
        toStr path = normal pathText ->
        callTool (JStr (Tool.name (listTool repoName))) args w =
        (normal (FileList
                   [ {| file_name := "README.md"; file_type := "file";
                        file_path := pathText ++ "/README.md" |};
                     {| file_name := "docs"; file_type := "directory";
                        file_path := pathText ++ "/docs/" |} ]), w)).
Proof.
  intros Hhas Hrepo. split.
  - intros query queryText Hquery Htext. rewrite callTool_pieces.
    change (Tool.name (searchTool repoName))
      with (repoName ++ String underscore "search")%string.
    rewrite (@before_append underscore repoName "search" Hrepo),
            (@after_append underscore repoName "search" Hrepo), Hhas.
    unfold bind, eval, ret, normal in *. cbn [negb option_map isCase].
    simpl String.eqb. cbv iota. rewrite Hquery. cbv iota beta.
    rewrite Htext. reflexivity.
  - intros path pathText Hpath Htext. rewrite callTool_pieces.
    change (Tool.name (listTool repoName))
      with (repoName ++ String underscore "list")%string.
    rewrite (@before_append underscore repoName "list" Hrepo),
            (@after_append underscore repoName "list" Hrepo), Hhas.
    unfold bind, eval, ret, normal in *. cbn [negb option_map isCase].
    simpl String.eqb. cbv iota. rewrite Hpath. cbv iota beta.
    rewrite Htext. reflexivity.
Qed.

Lemma listed_tools_are_callable_witness :
  callTool (JStr "context7_search") (JObj [("query", JStr "hooks")])
           (worldWith context7Only)
  = (normal (SearchResults
               [ {| hit_path := "/context7/example.md";
                    hit_content :=
                      "Search results for " ++ JsString.dquote ++ "hooks"
                        ++ JsString.dquote ++ " in context7";
                    hit_score := "0.95" |} ]),
     worldWith context7Only).
Proof.
  exact (proj1 (@listed_tools_are_callable "context7"
                  (JObj [("query", JStr "hooks")]) (worldWith context7Only)
                  eq_refl eq_refl)
               (JStr "hooks") "hooks" eq_refl eq_refl).
Defined.

(** X6.  A repository whose own name contains the separator is listed but
    cannot be reached: calling its listed search tool looks up only the text
    before the first separator, and fails when that text is not a registered
    name, whatever else the registry holds. *)
Theorem separator_in_repository_name (first rest : string) (args : JsValue) (w : World) :
  JsString.occurs underscore first = false ->
  JsMap.has first (mcpProcesses w) = false ->
  callTool (JStr (Tool.name (searchTool (first ++ "_" ++ rest)))) args w =
  (abrupt (Error ("Repository " ++ first ++ " not available")), w).
Proof.
  intros Hfirst Hhas. rewrite callTool_pieces.
  change (Tool.name (searchTool (first ++ "_" ++ rest)))
    with ((first ++ String underscore rest) ++ "_search")%string.
  rewrite string_append_assoc.
  change (String underscore rest ++ "_search")%string
    with (String underscore (rest ++ "_search"))%string.
  rewrite (@before_append underscore first (rest ++ "_search") Hfirst), Hhas.
  reflexivity.
Qed.

Lemma separator_in_repository_name_witness :
  callTool (JStr (Tool.name (searchTool ("my" ++ "_" ++ "repo")))) (JObj [])
           (worldWith (JsMap.set "my_repo" (registered "http://x") JsMap.empty))
  = (abrupt (Error "Repository my not available"),
     worldWith (JsMap.set "my_repo" (registered "http://x") JsMap.empty)).
Proof.
  exact (@separator_in_repository_name "my" "repo" (JObj [])
           (worldWith (JsMap.set "my_repo" (registered "http://x") JsMap.empty))
           eq_refl eq_refl).
Defined.

(** X7.  The registry lookup comes before anything else in [callTool]: for
    a name whose text before the first separator is not registered, the call
    throws [Repository ... not available] whatever the action and whatever
    the arguments, missing arguments included, and leaves the world as it
    was. *)
Theorem unknown_backend_is_reported_first (name : string) (args : JsValue) (w : World) :
  JsMap.has (JsString.before underscore name) (mcpProcesses w) = false ->
  callTool (JStr name) args w =
  (abrupt (Error ("Repository " ++ JsString.before underscore name ++ " not available")),
   w).
Proof.
  intros Hhas. rewrite callTool_pieces, Hhas. reflexivity.
Qed.

Lemma unknown_backend_is_reported_first_witness :
  callTool (JStr "gamma_search") JUndefined (worldWith alphaBeta)
  = (abrupt (Error "Repository gamma not available"), worldWith alphaBeta).
Proof.
  exact (@unknown_backend_is_reported_first "gamma_search" JUndefined
           (worldWith alphaBeta) eq_refl).
Defined.

(** X8.  For a registered repository, a name without any separator has no
    action: the call throws [Unknown action: undefined], without looking at
    the arguments. *)
Theorem name_without_separator_has_no_action (name : string) (args : JsValue) (w : World) :
  JsString.occurs underscore name = false ->
  JsMap.has name (mcpProcesses w) = true ->
  callTool (JStr name) args w = (abrupt (Error "Unknown action: undefined"), w).
Proof.
  intros Hnone Hhas. rewrite callTool_pieces.
  rewrite (@before_no_separator underscore name Hnone),
          (@after_no_separator underscore name Hnone), Hhas.
  reflexivity.
Qed.

Lemma name_without_separator_has_no_action_witness :
  callTool (JStr "alpha") JUndefined (worldWith alphaBeta)
  = (abrupt (Error "Unknown action: undefined"), worldWith alphaBeta).
Proof.
  exact (@name_without_separator_has_no_action "alpha" JUndefined
           (worldWith alphaBeta) eq_refl eq_refl).
Defined.

(** X9.  For a registered repository, an action other than [search] and
    [list] is refused by name: the call throws [Unknown action: ...] with the
    text between the first and the second separator, without looking at the
    arguments. *)
Theorem unknown_action_is_named (name rest : string) (args : JsValue) (w : World) :
  JsMap.has (JsString.before underscore name) (mcpProcesses w) = true ->
  JsString.after underscore name = Some rest ->
  JsString.before underscore rest <> "search" ->
  JsString.before underscore rest <> "list" ->
  callTool (JStr name) args w =
  (abrupt (Error ("Unknown action: " ++ JsString.before underscore rest)), w).
Proof.
  intros Hhas Hrest Hsearch Hlist. rewrite callTool_pieces, Hhas, Hrest.
  apply String.eqb_neq in Hsearch, Hlist.
  cbn [negb option_map isCase interpolate]. rewrite Hsearch, Hlist. reflexivity.
Qed.

Lemma unknown_action_is_named_witness :
  callTool (JStr "alpha_delete_all") JUndefined (worldWith alphaBeta)
  = (abrupt (Error "Unknown action: delete"), worldWith alphaBeta).
Proof.
  refine (@unknown_action_is_named "alpha_delete_all" "delete_all" JUndefined
            (worldWith alphaBeta) eq_refl eq_refl _ _); discriminate.
Defined.

(** X10.  A tool name that is not a string never reaches the registry:
    [callTool] throws a [TypeError] on [name.split] and leaves the world as
    it was.  This is what a [tools/call] request without [name] runs into. *)
Theorem tool_name_must_be_a_string (name args : JsValue) (w : World) :
  (forall s, name <> JStr s) ->
  exists text, callTool name args w = (abrupt (TypeError text), w).
Proof.
  intros Hname. unfold callTool, bind, eval, callSplit.
  destruct name as [| | b | numeral | s | items | props];
    try (eexists; reflexivity).
  exfalso. now apply (Hname s).
Qed.

Lemma tool_name_must_be_a_string_witness :
  exists text,
    callTool JUndefined (JObj []) (worldWith alphaBeta)
    = (abrupt (TypeError text), worldWith alphaBeta).
Proof.
  apply tool_name_must_be_a_string. intros s. discriminate.
Defined.

(** X11.  A method that is none of the five the router knows is refused by
    name: [handleRequest] throws [Unknown method: ...] with the method as a
    template literal prints it, so a request without [method] is refused as
    [Unknown method: undefined]; the parameters are not looked at. *)
Theorem unknown_method_is_named
    (method params : JsValue) (methodText : string) (w : World) :
  strictEq method "initialize" = false ->
  strictEq method "tools/list" = false ->
  strictEq method "tools/call" = false ->
  strictEq method "resources/list" = false ->
  strictEq method "resources/read" = false ->
  toStr method = normal methodText ->
  handleRequest method params w =
  (abrupt (Error ("Unknown method: " ++ methodText)), w).
Proof.
  intros H1 H2 H3 H4 H5 Htext. unfold handleRequest.
  rewrite H1, H2, H3, H4, H5. unfold bind, eval. rewrite Htext. reflexivity.
Qed.

Lemma unknown_method_is_named_witness :
  handleRequest JUndefined JUndefined initialWorld
  = (abrupt (Error "Unknown method: undefined"), initialWorld).
Proof.
  exact (@unknown_method_is_named JUndefined JUndefined "undefined" initialWorld
           eq_refl eq_refl eq_refl eq_refl eq_refl eq_refl).
Defined.

(** ** The registry under [set] and [delete] *)

Lemma reachable_keys_unique (registry : Registry) :
  RegistryReachable registry -> NoDup (JsMap.keys registry).
Proof.
  induction 1 as [| name address child registry _ IH | name registry _ IH].
  - constructor.
  - destruct (JsMap.has name registry) eqn:Hhas.
    + now rewrite keys_set_present.
    + rewrite (@set_fresh _ name _ registry Hhas).
      assert (Hkeys : forall extra : Registry,
                 JsMap.keys (registry ++ extra) = JsMap.keys registry ++ JsMap.keys extra)
        by (intros extra; unfold JsMap.keys; apply map_app).
      rewrite Hkeys. simpl.
      apply NoDup_app; [exact IH | repeat constructor; intros [] |].
      intros k Hk [Heq | []]. subst k.
      apply (keys_has name registry) in Hk. congruence.
  - rewrite keys_delete. now apply NoDup_filter.
Qed.

(** X12.  When a child exits, its listener takes the repository out of the
    registry and logs the exit: the name is no longer held, its two tools
    are gone from the next tool list, and every other entry is as it was. *)
Theorem exit_removes_only_its_backend
    (name other : string) (code : ExitCode) (w : World) :
  let w' := snd (onExit name code w) in
  fst (onExit name code w) = normal tt
  /\ JsMap.has name (mcpProcesses w') = false
  /\ (other <> name ->
      JsMap.get other (mcpProcesses w') = JsMap.get other (mcpProcesses w))
  /\ fst (getAllTools w') =
       normal (flat_map (fun n => [searchTool n; listTool n])
                 (filter (fun n => negb (String.eqb n name))
                         (runningNames (mcpProcesses w))))
  /\ console w' =
       console w ++ [Log ("[" ++ name ++ "] Process exited with code "
                            ++ exitCodeText code)].
Proof.
  cbv zeta.
  assert (Hreg : mcpProcesses (snd (onExit name code w))
                 = JsMap.delete name (mcpProcesses w)) by reflexivity.
  split; [reflexivity |]. split.
  { rewrite Hreg. unfold JsMap.has. now rewrite get_delete_same. }
  split.
  { intros Hneq. rewrite Hreg. now apply get_delete_other. }
  split; [| reflexivity].
  rewrite getAllTools_eq, Hreg, runningNames_delete. reflexivity.
Qed.

Lemma exit_removes_only_its_backend_witness :
  JsMap.get "alpha" (mcpProcesses (snd (onExit "beta" (Exited "1") (worldWith alphaBeta))))
  = Some (registered "http://x").
Proof.
  pose proof (@exit_removes_only_its_backend "beta" "alpha" (Exited "1")
                (worldWith alphaBeta)) as H.
  cbv zeta in H. destruct H as (_ & _ & H & _).
  rewrite H; [reflexivity | discriminate].
Defined.

(** X13.  Registering a repository under a name the registry does not hold
    and then running the exit listener for that name gives back the registry
    as it was before: entries, values and order. *)
Theorem register_then_exit_restores
    (name : string) (data : RepoData) (code : ExitCode) (w : World) :
  JsMap.has name (mcpProcesses w) = false ->
  mcpProcesses (snd (onExit name code (snd (mcp_set name data w)))) = mcpProcesses w.
Proof.
  intros Hfresh.
  change (mcpProcesses (snd (onExit name code (snd (mcp_set name data w)))))
    with (JsMap.delete name (JsMap.set name data (mcpProcesses w))).
  rewrite delete_set. now apply delete_absent.
Qed.

Lemma register_then_exit_restores_witness :
  mcpProcesses
    (snd (onExit "gamma" Signalled
            (snd (mcp_set "gamma" (registered "http://z") (worldWith alphaBeta)))))
  = alphaBeta.
Proof.
  exact (@register_then_exit_restores "gamma" (registered "http://z") Signalled
           (worldWith alphaBeta) eq_refl).
Defined.

(** X14.  In every registry reachable by the writes of the program no name
    occurs twice, and so the tool list never holds two tools of the same
    qualified name, nor the resource list two resources of the same
    address. *)
Theorem reachable_descriptors_are_unique (w : World) :
  RegistryReachable (mcpProcesses w) ->
  NoDup (JsMap.keys (mcpProcesses w))
  /\ (forall tools, fst (getAllTools w) = normal tools ->
        NoDup (map Tool.name tools))
  /\ (forall resources, fst (getAllResources w) = normal resources ->
        NoDup (map Resource.uri resources)).
Proof.
  intros Hreach.
  pose proof (reachable_keys_unique Hreach) as Hkeys.
  pose proof (all_running_names (reachable_all_running Hreach)) as Hnames.
  split; [exact Hkeys |]. split.
  - intros tools. rewrite getAllTools_eq, Hnames. intros [= <-].
    clear Hnames Hreach. revert Hkeys. generalize (JsMap.keys (mcpProcesses w)).
    intros names Hkeys.
    induction Hkeys as [| n names Hn Hnodup IH]; simpl; [constructor |].
    constructor; [| constructor; [| exact IH]].
    + intros [Heq | Hin].
      * symmetry in Heq. now apply search_name_not_list_name in Heq.
      * apply in_map_iff in Hin as [tool [Hname Hin]].
        destruct (tools_name_other names n tool Hn Hin) as [Hsearch _].
        now apply Hsearch.
    + intros Hin. apply in_map_iff in Hin as [tool [Hname Hin]].
      destruct (tools_name_other names n tool Hn Hin) as [_ Hlist].
      now apply Hlist.
  - intros resources. rewrite getAllResources_eq, Hnames. intros [= <-].
    clear Hnames Hreach. revert Hkeys. generalize (JsMap.keys (mcpProcesses w)).
    intros names Hkeys.
    induction Hkeys as [| n names Hn Hnodup IH]; simpl; [constructor |].
    constructor; [| exact IH].
    intros Hin. apply in_map_iff in Hin as [r [Huri Hin]].
    now apply (resources_uri_other names n r Hn Hin).
Qed.

Lemma reachable_descriptors_are_unique_witness :
  RegistryReachable (mcpProcesses (worldWith alphaBeta))
  /\ NoDup (JsMap.keys (mcpProcesses (worldWith alphaBeta))).
Proof.
  assert (H : RegistryReachable (mcpProcesses (worldWith alphaBeta))).
  { simpl. unfold alphaBeta, registered.
    apply reach_set. apply reach_set. apply reach_empty. }
  split; [exact H |].
  exact (proj1 (reachable_descriptors_are_unique (worldWith alphaBeta) H)).
Defined.

(** X15.  The health report lists the names of the registry and one process
    row per name, in the same order, for every registry; once the exit
    listener of a repository has run, neither list names it. *)
Theorem health_follows_registry
    (now name : string) (code : ExitCode) (w : World) :
  (exists processes,
      getHealth now w =
        (normal {| statusCode := 200;
                   body := HealthBody "healthy" now
                             (JsMap.keys (mcpProcesses w)) processes |}, w)
      /\ map info_name processes = JsMap.keys (mcpProcesses w)
      /\ length processes = length (mcpProcesses w))
  /\ (exists repositories processes,
        fst (getHealth now (snd (onExit name code w))) =
          normal {| statusCode := 200;
                    body := HealthBody "healthy" now repositories processes |}
        /\ ~ In name repositories
        /\ ~ In name (map info_name processes)).
Proof.
  assert (Hnames : forall registry : Registry,
             map info_name
               (map (fun entry : string * RepoData =>
                       {| info_name := fst entry;
                          info_status := status (snd entry);
                          info_url := url (snd entry) |}) registry)
             = JsMap.keys registry).
  { intros registry. unfold JsMap.keys. rewrite map_map. reflexivity. }
  split.
  - eexists. split; [reflexivity |]. split.
    + apply Hnames.
    + unfold JsMap.entries. apply length_map.
  - eexists. eexists. split; [reflexivity |].
    assert (Hgone : ~ In name (JsMap.keys (JsMap.delete name (mcpProcesses w)))).
    { rewrite keys_delete. intros H. apply filter_In in H as [_ H].
      now rewrite String.eqb_refl in H. }
    split; [exact Hgone |].
    unfold JsMap.entries. simpl mcpProcesses. now rewrite Hnames.
Qed.

(** ** The socket listener, message by message *)



(** X17.  Whatever the message, the listener puts at most one envelope on
    the socket and touches nothing else: registry, console, children and
    listeners are as before.  An envelope that is sent always carries a
    result: the error envelope of the [catch] block is never sent. *)
Theorem message_sends_at_most_one_result
    (env : list (string * JsValue)) (m : WsMessage) (w : World) :
  let w' := snd (onMessage env m w) in
  mcpProcesses w' = mcpProcesses w
  /\ console w' = console w
  /\ children w' = children w
  /\ supervised w' = supervised w
  /\ (sent w' = sent w
      \/ exists requestId response,
           sent w' = sent w ++ [ {| jsonrpc := "2.0"; id := requestId;
                                    outcome := Result response |} ]).
Proof.
  cbv zeta.
  destruct (fst (attempt m w)) as [e | []] eqn:Hattempt.
  - rewrite (onMessage_failure env m w Hattempt). simpl. auto 6.
  - unfold onMessage, try_catch. fold (attempt m).
    unfold attempt in *. unfold bind, eval in *.
    destruct (JSON_parse m) as [e0 | request]; [discriminate |].
    destruct (getProp request "method") as [e0 | method]; [discriminate |].
    destruct (getProp request "params") as [e0 | params]; [discriminate |].
    pose proof (readOnly_handleRequest method params w) as Hro.
    destruct (handleRequest method params w) as [[e0 | response] w0];
      simpl in Hro; subst w0; [discriminate |].
    destruct (getProp request "id") as [e0 | requestId]; [discriminate |].
    simpl. repeat split. right. exists requestId, response. reflexivity.
Qed.

(** X18.  Whenever the [try] block of the listener throws, for whatever
    reason (text that is not JSON, a request that is [null], an unknown
    method, an unknown repository, parameters that are missing), no envelope
    is sent, the world is left as it was, and the promise of the listener is
    rejected with the [ReferenceError] of the [catch] block instead of the
    error that was thrown. *)
Theorem failed_dispatch_sends_nothing
    (env : list (string * JsValue)) (m : WsMessage) (w : World) (e : JsError) :
  fst (attempt m w) = abrupt e ->
  onMessage env m w = (abrupt requestNotDefined, w)
  /\ sent (snd (onMessage env m w)) = sent w.
Proof.
  intros Hfail. pose proof (onMessage_failure env m w Hfail) as Hrun.
  split; [exact Hrun |]. now rewrite Hrun.
Qed.

Lemma failed_dispatch_sends_nothing_witness :
  onMessage [] (Parsed JNull) initialWorld = (abrupt requestNotDefined, initialWorld).
Proof.
  exact (proj1 (@failed_dispatch_sends_nothing [] (Parsed JNull) initialWorld
                  (TypeError "Cannot read properties of null (reading 'method')")
                  eq_refl)).
Defined.

(** X19.  In every run of the event loop the registry stays empty, no child
    is ever spawned and no listener attached: start-up registers nothing,
    exit events find no listener, and requests only read.  The tool list is
    then empty and every tool call is refused as [not available]. *)
Theorem registry_stays_empty_in_every_run
    (env : list (string * JsValue)) (port : string)
    (spawnThrows : string -> list string -> option JsError)
    (events : list Event) (name : string) (args : JsValue) :
  let w := worldOf (run env port spawnThrows events) in
  mcpProcesses w = JsMap.empty
  /\ children w = []
  /\ supervised w = []
  /\ fst (getAllTools w) = normal []
  /\ callTool (JStr name) args w =
       (abrupt (Error ("Repository " ++ JsString.before underscore name
                         ++ " not available")), w).
Proof.
  cbv zeta.
  destruct (run_keeps_empty env port spawnThrows events) as (Hreg & Hch & Hsup).
  split; [exact Hreg |]. split; [exact Hch |]. split; [exact Hsup |]. split.
  - rewrite getAllTools_eq, Hreg. reflexivity.
  - rewrite callTool_pieces, Hreg. reflexivity.
Qed.

(** ** Start-up, line by line *)

(** X20.  Start-up reports every configured repository as failed, in the
    order of the configuration: after the opening line the console holds,
    for each entry, the line that announces its start and the error line
    with the [ReferenceError] on [process]. *)
Theorem startup_logs_a_failure_per_entry
    (env : list (string * JsValue))
    (spawnThrows : string -> list string -> option JsError)
    (config : list (string * string)) (w : World) :
  console (snd (initializeMCPServers env spawnThrows config w)) =
  console w
    ++ Log "Initializing MCP servers..."
       :: flat_map
            (fun entry : string * string =>
               [ Log ("Starting MCP server for " ++ fst entry ++ "...");
                 LogError ("Failed to start MCP server for " ++ fst entry ++ ":")
                          (Some processNotInitialized) ])
            config.
Proof.
  assert (Hloop : forall w0,
             console
               (snd (forEach config
                       (fun entry => startBackend env spawnThrows (fst entry) (snd entry))
                       w0)) =
             console w0
               ++ flat_map
                    (fun entry : string * string =>
                       [ Log ("Starting MCP server for " ++ fst entry ++ "...");
                         LogError ("Failed to start MCP server for " ++ fst entry ++ ":")
                                  (Some processNotInitialized) ])
                    config).
  { induction config as [| [name address] config IH]; intros w0.
    - simpl. now rewrite app_nil_r.
    - cbn [forEach flat_map fst snd]. unfold bind at 1.
      rewrite startBackend_eq. unfold normal. cbv beta iota. rewrite IH. simpl console.
      rewrite <- !app_assoc. reflexivity. }
  unfold initializeMCPServers, bind at 1, console_log at 1, normal.
  cbv beta iota. rewrite Hloop. simpl console. rewrite <- app_assoc. reflexivity.
Qed.

(** ** The HTTP routes, request by request *)

(** X21.  Every HTTP request is answered: a route returns a reply, never
    throws and leaves the world as it was; the status is 200 or 500, and a
    reply with status 500 carries an error message as its body. *)
Theorem every_route_replies (r : HttpRequest) (w : World) :
  exists reply,
    route r w = (normal reply, w)
    /\ (statusCode reply = 200
        \/ (statusCode reply = 500 /\ exists text, body reply = ErrorBody text)).
Proof.
  assert (Hcaught : forall (attempted : M HttpReply),
             readOnly attempted ->
             (forall reply w', attempted w = (normal reply, w') -> statusCode reply = 200) ->
             exists reply,
               try_catch attempted internalError w = (normal reply, w)
               /\ (statusCode reply = 200
                   \/ (statusCode reply = 500 /\ exists text, body reply = ErrorBody text))).
  { intros attempted Hro Hok. unfold try_catch. specialize (Hro w).
    destruct (attempted w) as [[e | reply] w'] eqn:Hrun; simpl in Hro; subst w'.
    - eexists. split; [reflexivity |]. right. split; [reflexivity |].
      eexists. reflexivity.
    - exists reply. split; [reflexivity |]. left. now apply (Hok reply w). }
  assert (Hjson : forall A (m : M A) (wrap : A -> HttpBody) reply w',
             bind m (fun a => json (wrap a)) w = (normal reply, w') ->
             statusCode reply = 200).
  { intros A m wrap reply w'. unfold bind, json, ret.
    destruct (m w) as [[e | a] w0]; [discriminate |]. now intros [= <- _]. }
  destruct r as [now | | toolName requestBody | | rest]; simpl.
  - eexists. split; [reflexivity |]. left. reflexivity.
  - apply Hcaught; [unfold json; frame | apply Hjson].
  - apply Hcaught; [unfold json; frame |].
    intros reply w'. unfold bind at 1, eval.
    destruct (getProp requestBody "arguments") as [e | given]; [discriminate |].
    apply Hjson.
  - apply Hcaught; [unfold json; frame | apply Hjson].
  - apply Hcaught; [unfold json; frame | apply Hjson].
Qed.

(** X22.  The three reading routes never answer 500: the tool list and the
    resource list are served from the registry as it is, and a resource is
    served for every path, its text naming what stands before the first
    slash of the path as the repository and the rest as the path. *)
Theorem reading_routes_always_succeed (rest : string) (w : World) :
  getTools w =
    (normal {| statusCode := 200;
               body := ToolsBody
                         (flat_map (fun n => [searchTool n; listTool n])
                                   (runningNames (mcpProcesses w))) |}, w)
  /\ getResources w =
       (normal {| statusCode := 200;
                  body := ResourcesBody
                            (map rootResource (runningNames (mcpProcesses w))) |}, w)
  /\ getResource rest w =
       (normal
          {| statusCode := 200;
             body :=
               ResourceBody
                 (Contents
                    [ {| content_uri := JStr ("mcp://" ++ rest);
                         content_mimeType := "text/plain";
                         content_text :=
                           "Content of "
                             ++ match JsString.after slash rest with
                                | Some path => path
                                | None => EmptyString
                                end
                             ++ " from " ++ JsString.before slash rest
                             ++ " repository" |} ]) |}, w).
Proof.
  split; [| split].
  - unfold getTools, try_catch, bind. rewrite getAllTools_eq. reflexivity.
  - unfold getResources, try_catch, bind. rewrite getAllResources_eq. reflexivity.
  - change (getResource rest w)
      with (normal
              {| statusCode := 200;
                 body :=
                   ResourceBody
                     (Contents
                        [ {| content_uri := JStr ("mcp://" ++ rest);
                             content_mimeType := "text/plain";
                             content_text :=
                               "Content of "
                                 ++ snd (parseResourceUri ("mcp://" ++ rest))
                                 ++ " from "
                                 ++ interpolate (fst (parseResourceUri ("mcp://" ++ rest)))
                                 ++ " repository" |} ]) |}, w).
    rewrite parseResourceUri_scheme. reflexivity.
Qed.

(** X23.  The tool route puts an empty object in the place of arguments that
    are missing or falsy: for a registered repository without a separator in
    its name, the search tool is then answered with status 200 and a hit for
    the query [undefined]. *)
Theorem tool_route_defaults_arguments
    (repoName : string) (requestBody given : JsValue) (w : World) :
  JsMap.has repoName (mcpProcesses w) = true ->
  JsString.occurs underscore repoName = false ->
  getProp requestBody "arguments" = normal given ->
  truthy given = false ->
  postTool (repoName ++ "_search") requestBody w =
  (normal
     {| statusCode := 200;
        body :=
          ResultBody
            (SearchResults
               [ {| hit_path := "/" ++ repoName ++ "/example.md";
                    hit_content :=
                      "Search results for " ++ JsString.dquote ++ "undefined"
                        ++ JsString.dquote ++ " in " ++ repoName;
                    hit_score := "0.95" |} ]) |}, w).
Proof.
  intros Hhas Hrepo Hbody Hfalsy.
  unfold postTool, try_catch. unfold bind at 1, eval at 1.
  rewrite Hbody. unfold normal. cbv beta iota. rewrite Hfalsy.
  unfold bind at 1. rewrite callTool_pieces.
  change (repoName ++ "_search")%string
    with (repoName ++ String underscore "search")%string.
  rewrite (@before_append underscore repoName "search" Hrepo),
          (@after_append underscore repoName "search" Hrepo), Hhas.
  reflexivity.
Qed.

Lemma tool_route_defaults_arguments_witness :
  postTool ("context7" ++ "_search") (JObj []) (worldWith context7Only) =
  (normal
     {| statusCode := 200;
        body :=
          ResultBody
            (SearchResults
               [ {| hit_path := "/" ++ "context7" ++ "/example.md";
                    hit_content :=
                      "Search results for " ++ JsString.dquote ++ "undefined"
                        ++ JsString.dquote ++ " in " ++ "context7";
                    hit_score := "0.95" |} ]) |}, worldWith context7Only).
Proof.
  exact (@tool_route_defaults_arguments "context7" (JObj []) JUndefined
           (worldWith context7Only) eq_refl eq_refl eq_refl eq_refl).
Defined.

(** X24.  The tool route answers a call for a repository that is not
    registered with status 500 and the message of the router as the error,
    naming the text before the first separator of the tool name. *)
Theorem tool_route_reports_unknown_backend
    (toolName : string) (requestBody given : JsValue) (w : World) :
  getProp requestBody "arguments" = normal given ->
  JsMap.has (JsString.before underscore toolName) (mcpProcesses w) = false ->
  postTool toolName requestBody w =
  (normal
     {| statusCode := 500;
        body := ErrorBody ("Repository " ++ JsString.before underscore toolName
                             ++ " not available") |}, w).
Proof.
  intros Hbody Hhas.
  unfold postTool, try_catch. unfold bind at 1, eval at 1.
  rewrite Hbody. unfold normal. cbv beta iota.
  unfold bind at 1. rewrite callTool_pieces, Hhas. reflexivity.
Qed.

Lemma tool_route_reports_unknown_backend_witness :
  postTool "gamma_search" (JObj [("arguments", JObj [("query", JStr "foo")])])
           (worldWith alphaBeta) =
  (normal {| statusCode := 500;
             body := ErrorBody "Repository gamma not available" |},
   worldWith alphaBeta).
Proof.
  exact (@tool_route_reports_unknown_backend "gamma_search"
           (JObj [("arguments", JObj [("query", JStr "foo")])])
           (JObj [("query", JStr "foo")]) (worldWith alphaBeta) eq_refl eq_refl).
Defined.

(** X25.  The two transports run the same router: for a tool name and
    arguments that are truthy, the tool route answers with status 200 and
    exactly the result that [handleRequest] returns for the [tools/call]
    request of the same name and arguments, and with status 500 and exactly
    the message of the error that [handleRequest] throws. *)
Theorem tool_route_agrees_with_router (toolName : string) (given : JsValue) (w : World) :
  truthy given = true ->
  postTool toolName (JObj [("arguments", given)]) w =
  match fst (handleRequest (JStr "tools/call")
               (JObj [("name", JStr toolName); ("arguments", given)]) w) with
  | inr result => (normal {| statusCode := 200; body := ResultBody result |}, w)
  | inl error => (normal {| statusCode := 500; body := ErrorBody (message error) |}, w)
  end.
Proof.
  intros Htruthy.
  assert (Hrouter : handleRequest (JStr "tools/call")
                      (JObj [("name", JStr toolName); ("arguments", given)]) w
                    = callTool (JStr toolName) given w) by reflexivity.
  assert (Hroute : postTool toolName (JObj [("arguments", given)]) w =
                   match callTool (JStr toolName) given w with
                   | (inl error, w') => internalError error w'
                   | (inr result, w') =>
                       (normal {| statusCode := 200; body := ResultBody result |}, w')
                   end).
  { unfold postTool, try_catch. unfold bind at 1, eval at 1. simpl getProp.
    unfold normal. cbv beta iota. rewrite Htruthy. unfold bind, json, ret.
    destruct (callTool (JStr toolName) given w) as [[error | result] w']; reflexivity. }
  rewrite Hroute, Hrouter.
  pose proof (readOnly_callTool (JStr toolName) given w) as Hro.
  destruct (callTool (JStr toolName) given w) as [[error | result] w'];
    simpl in Hro; subst w'; reflexivity.
Qed.

Lemma tool_route_agrees_with_router_witness :
  postTool "alpha_list" (JObj [("arguments", JObj [("path", JStr "/src")])])
           (worldWith alphaBeta) =
  (normal
     {| statusCode := 200;
        body :=
          ResultBody
            (FileList
               [ {| file_name := "README.md"; file_type := "file";
                    file_path := "/src/README.md" |};
                 {| file_name := "docs"; file_type := "directory";
                    file_path := "/src/docs/" |} ]) |}, worldWith alphaBeta).
Proof.
  rewrite (@tool_route_agrees_with_router "alpha_list" (JObj [("path", JStr "/src")])
             (worldWith alphaBeta) eq_refl).
  reflexivity.
Defined.
